(** * homebridge-camera-ffmpeg: the streaming delegate

    A shallow embedding of [src/streamingDelegate.ts]: the resolution and
    bitrate negotiation, the ffmpeg command lines, the address resolution
    and the pending/ongoing session tables of [StreamingDelegate].

    Conventions of the embedding.
    - A JS [number] that the delegate receives from HomeKit or from the
      camera configuration is an integer, modelled as [Z]; [String(n)] is
      the decimal numeral [pretty n].
    - An optional configuration field is an [option]: [None] stands for
      [undefined] (or [null]).
    - The two session tables are JS objects used as maps keyed by the
      session identifier (a UUID string): [gmap string _].
    - Side effects (log lines, callbacks, process control) are appended to
      a trace carried in the state, in the order the code performs them. *)

From Stdlib Require Import ZArith Lia Ascii.
From stdpp Require Import base option list strings gmap pretty.

Local Open Scope Z_scope.

(** ** JavaScript values *)

Module Js.

(** Truthiness of an optional number: [undefined] and [0] are falsy. *)
Definition truthyNum (v : option Z) : bool :=
  match v with
  | Some n => negb (n =? 0)
  | None => false
  end.

(** Truthiness of an optional string: [undefined] and [''] are falsy. *)
Definition truthyStr (v : option string) : bool :=
  match v with
  | Some s => negb (String.eqb s EmptyString)
  | None => false
  end.

(** [v || d] on an optional number. *)
Definition orNum (v : option Z) (d : Z) : Z :=
  match v with
  | Some n => if n =? 0 then d else n
  | None => d
  end.

(** [v || d] on an optional string. *)
Definition orStr (v : option string) (d : string) : string :=
  match v with
  | Some s => if String.eqb s EmptyString then d else s
  | None => d
  end.

(** [a > b] where [b] may be [undefined]: the comparison is then false. *)
Definition gt (a : Z) (b : option Z) : bool :=
  match b with
  | Some n => a >? n
  | None => false
  end.

(** [a < b] where [b] may be [undefined]. *)
Definition lt (a : Z) (b : option Z) : bool :=
  match b with
  | Some n => a <? n
  | None => false
  end.

(** [a > cap ? cap : a]. *)
Definition capAt (a : Z) (cap : option Z) : Z :=
  match cap with
  | Some n => if a >? n then n else a
  | None => a
  end.

(** [Array.prototype.join(',')]. *)
Definition join (sep : string) (parts : list string) : string :=
  String.concat sep parts.

(** Thrown values. *)
Inductive Error :=
| TypeError (message : string)
| PlainError (message : string).

(** [String(err)], as produced by ['...' + err]. *)
Definition toString (e : Error) : string :=
  match e with
  | TypeError m => "TypeError: " +:+ m
  | PlainError m => "Error: " +:+ m
  end.

End Js.

(** ** Configuration and requests *)

(** [VideoConfig] of [configTypes.ts], as the delegate reads it. *)
Record VideoConfig := {
  source : string;
  stillImageSource : option string;
  maxStreams : option Z;
  maxWidth : option Z;
  maxHeight : option Z;
  maxFPS : option Z;
  maxBitrate : option Z;
  minBitrate : option Z;
  preserveRatio : option string;
  vcodec : option string;
  packetSize : option Z;
  videoFilter : option string;
  additionalCommandline : option string;
  mapvideo : option string;
  mapaudio : option string;
  audio : bool;
  vflip : bool;
  hflip : bool;
  debug : bool
}.

(** The read-only fields of a [StreamingDelegate] instance. *)
Record StreamingDelegate := {
  name : string;
  videoConfig : VideoConfig;
  videoProcessor : string;
  interfaceName : option string
}.

Record ResolutionInfo := {
  width : Z;
  height : Z;
  resVideoFilter : string
}.

(** ** Resolution negotiation: [determineResolution] *)

Section Negotiation.

Variable cfg : VideoConfig.

(** The [switch (preserveRatio)] of [determineResolution]. *)
Definition resolution (w h : Z) : string :=
  match preserveRatio cfg with
  | Some r =>
      if String.eqb r "W" then pretty w +:+ ":-1"
      else if String.eqb r "H" then "-1:" +:+ pretty h
      else pretty w +:+ ":" +:+ pretty h
  | None => pretty w +:+ ":" +:+ pretty h
  end.

(** [this.videoConfig.videoFilter || null]. *)
Definition configFilter : option string :=
  if Js.truthyStr (videoFilter cfg) then videoFilter cfg else None.

(** The local [videoFilter] of [determineResolution]: the configured
    filter, or the synthesized scale directive. *)
Definition baseFilter (w h : Z) : string :=
  match configFilter with
  | Some f => if String.eqb f EmptyString then "scale=" +:+ resolution w h else f
  | None => "scale=" +:+ resolution w h
  end.

(** What the two flip tests push onto [vf], in the order of the code:
    the test of [vflip] first, then the test of [hflip]. *)
Definition flipDirectives : list string :=
  (if vflip cfg then ["hflip"] else []) ++
  (if hflip cfg then ["vflip"] else []).

(** The array [vf] at the end of [determineResolution]. *)
Definition vf (w h : Z) : list string :=
  let videoFilter := baseFilter w h in
  if negb (String.eqb videoFilter "none") then
    flipDirectives ++ [videoFilter]
  else [].

Definition determineResolution (reqWidth reqHeight : Z) : ResolutionInfo :=
  let width := Js.capAt reqWidth (maxWidth cfg) in
  let height := Js.capAt reqHeight (maxHeight cfg) in
  {| width := width;
     height := height;
     resVideoFilter := Js.join "," (vf width height) |}.

(** ** Frame rate and bitrates of [startStream] *)

Definition fps (reqFps : Z) : Z := Js.capAt reqFps (maxFPS cfg).

(** In the branches that assign a configured bitrate, that bitrate is a
    number: [default] only unwraps it. *)
Definition videoBitrate (max_bit_rate : Z) : Z :=
  if Js.truthyNum (maxBitrate cfg) && Js.gt max_bit_rate (maxBitrate cfg)
  then default max_bit_rate (maxBitrate cfg)
  else if Js.truthyNum (minBitrate cfg) && Js.lt max_bit_rate (minBitrate cfg)
  then default max_bit_rate (minBitrate cfg)
  else max_bit_rate.

Definition audioBitrate (max_bit_rate : Z) : Z :=
  if Js.truthyNum (maxBitrate cfg) && Js.gt max_bit_rate (maxBitrate cfg)
  then default max_bit_rate (maxBitrate cfg)
  else max_bit_rate.

Definition mtu : Z := Js.orNum (packetSize cfg) 1316.

End Negotiation.

(** ** Session data *)

Definition Buffer := list Byte.byte.

Inductive SRTPCryptoSuites := AES_CM_128_HMAC_SHA1_80 | AES_CM_256_HMAC_SHA1_80 | NONE.

Record SessionInfo := {
  address : string;
  videoPort : Z;
  videoReturnPort : Z;
  videoCryptoSuite : SRTPCryptoSuites;
  videoSRTP : Buffer;
  videoSSRC : Z;
  audioPort : Z;
  audioReturnPort : Z;
  audioCryptoSuite : SRTPCryptoSuites;
  audioSRTP : Buffer;
  audioSSRC : Z
}.

(** What [new FfmpegProcess(...)] is given by [startStream]. The class
    itself lives in [ffmpeg.ts]; the delegate only constructs it and calls
    its [stop()]. *)
Record FfmpegProcess := {
  procTitle : string;
  procSessionId : string;
  procCommand : string;
  procArgs : string;
  procReturnPort : Z;
  procDebug : bool
}.

Record SourceInfo := {
  srcPort : Z;
  srtpCryptoSuite : SRTPCryptoSuites;
  srtp_key : Buffer;
  srtp_salt : Buffer
}.

Inductive AddressVersion := ipv4 | ipv6.

Record PrepareStreamRequest := {
  prepSessionID : string;
  targetAddress : string;
  addressVersion : AddressVersion;
  prepVideo : SourceInfo;
  prepAudio : SourceInfo
}.

Record MediaResponse := {
  respPort : Z;
  respSsrc : Z;
  respSrtpKey : Buffer;
  respSrtpSalt : Buffer
}.

Record PrepareStreamResponse := {
  respAddress : string;
  respVideo : MediaResponse;
  respAudio : MediaResponse
}.

Record VideoInfo := {
  reqWidth : Z;
  reqHeight : Z;
  reqFps : Z;
  videoMaxBitRate : Z;
  videoPt : Z
}.

Record AudioInfo := {
  audioMaxBitRate : Z;
  sample_rate : Z;
  audioPt : Z
}.

Record StartStreamRequest := {
  startSessionID : string;
  video : VideoInfo;
  audioReq : AudioInfo
}.

Inductive StreamingRequest :=
| START (request : StartStreamRequest)
| RECONFIGURE (sessionID : string) (video : VideoInfo)
| STOP (sessionID : string).

Record SnapshotRequest := {
  snapWidth : Z;
  snapHeight : Z
}.

(** ** Effects *)

Inductive Level := Info | Warn | Err | Debug (enabled : bool).

Inductive Effect :=
| Log (level : Level) (message : string)
(** [spawn(command, fcmd.split(/\s+/), ...)] of the snapshot path *)
| Spawn (command : string) (fcmd : string)
(** [new FfmpegProcess(...)] *)
| NewFfmpegProcess (process : FfmpegProcess)
(** [ffmpegProcess.stop()] *)
| ProcessStop (process : FfmpegProcess)
(** the snapshot callback: [callback(err)] or [callback(undefined, buffer)] *)
| SnapshotCallback (err : option Js.Error) (image : option Buffer)
(** [callback(undefined, response)] of [prepareStream] *)
| PrepareCallback (sessionID : string) (response : PrepareStreamResponse)
(** [callback()] of [handleStreamRequest] *)
| StreamCallback (sessionID : string).

(** The mutable part of a delegate, with the trace of what it did. *)
Record State := {
  pendingSessions : gmap string SessionInfo;
  ongoingSessions : gmap string FfmpegProcess;
  trace : list Effect
}.

Definition initialState : State :=
  {| pendingSessions := ∅; ongoingSessions := ∅; trace := [] |}.

(** ** A state and exception monad

    A computation runs on a state and either returns or throws; the state
    changes made before a throw persist, as in JS. *)

Definition M (A : Type) : Type := State → State * (Js.Error + A).

Definition ret {A} (a : A) : M A := λ st, (st, inr a).

Definition bind {A B} (m : M A) (k : A → M B) : M B :=
  λ st, match m st with
        | (st', inr a) => k a st'
        | (st', inl e) => (st', inl e)
        end.

Definition throw {A} (e : Js.Error) : M A := λ st, (st, inl e).

(** [try { m } catch (err) { handler err }] *)
Definition try_catch {A} (m : M A) (handler : Js.Error → M A) : M A :=
  λ st, match m st with
        | (st', inr a) => (st', inr a)
        | (st', inl e) => handler e st'
        end.

Definition get : M State := λ st, (st, inr st).

Definition modify (f : State → State) : M unit := λ st, (f st, inr tt).

Definition emit (e : Effect) : M unit :=
  modify (λ st, {| pendingSessions := pendingSessions st;
                   ongoingSessions := ongoingSessions st;
                   trace := trace st ++ [e] |}).

Definition liftResult {A} (r : Js.Error + A) : M A :=
  match r with
  | inl e => throw e
  | inr a => ret a
  end.

Notation "x <- m ;; k" := (bind m (λ x, k))
  (at level 100, m at next level, right associativity, only parsing).
Notation "m ;;; k" := (bind m (λ _, k))
  (at level 100, right associativity, only parsing).

Definition log (level : Level) (message : string) : M unit := emit (Log level message).

Definition setPending (sessionID : string) (info : SessionInfo) : M unit :=
  modify (λ st, {| pendingSessions := <[sessionID := info]> (pendingSessions st);
                   ongoingSessions := ongoingSessions st;
                   trace := trace st |}).

Definition deletePending (sessionID : string) : M unit :=
  modify (λ st, {| pendingSessions := delete sessionID (pendingSessions st);
                   ongoingSessions := ongoingSessions st;
                   trace := trace st |}).

Definition setOngoing (sessionID : string) (process : FfmpegProcess) : M unit :=
  modify (λ st, {| pendingSessions := pendingSessions st;
                   ongoingSessions := <[sessionID := process]> (ongoingSessions st);
                   trace := trace st |}).

Definition deleteOngoing (sessionID : string) : M unit :=
  modify (λ st, {| pendingSessions := pendingSessions st;
                   ongoingSessions := delete sessionID (ongoingSessions st);
                   trace := trace st |}).

(** ** Still images: [handleSnapshotRequest] *)

(** What the child process does after [spawn] returned it. *)
Inductive ChildEvent :=
| StdoutData (data : Buffer)
| ProcError (error : string)
| ProcClose (code : option Z).

(** What [spawn] does: it throws, or returns a process that then emits
    events. *)
Inductive SpawnResult :=
| SpawnThrows (err : Js.Error)
| Spawned (events : list ChildEvent).

Definition ffmpegStillArgs (res : ResolutionInfo) : string :=
  " -frames:v 1" +:+
  (if negb (String.eqb (resVideoFilter res) EmptyString)
   then " -vf " +:+ resVideoFilter res else EmptyString) +:+
  " -f image2 -".

Definition snapshotCommand (cfg : VideoConfig) (res : ResolutionInfo) : string :=
  Js.orStr (stillImageSource cfg) (source cfg) +:+ ffmpegStillArgs res.

(** The three handlers registered on the child process, run on the events
    in the order they arrive; [imageBuffer] is the captured variable. *)
Fixpoint snapshotHandlers (this : StreamingDelegate) (events : list ChildEvent)
    (imageBuffer : Buffer) : M unit :=
  match events with
  | [] => ret tt
  | StdoutData data :: rest =>
      snapshotHandlers this rest (imageBuffer ++ data)
  | ProcError error :: rest =>
      log Err ("An error occurred while making snapshot request: " +:+ error) ;;;
      snapshotHandlers this rest imageBuffer
  | ProcClose _ :: rest =>
      emit (SnapshotCallback None (Some imageBuffer)) ;;;
      snapshotHandlers this rest imageBuffer
  end.

Definition handleSnapshotRequest (this : StreamingDelegate) (spawn : SpawnResult)
    (request : SnapshotRequest) : M unit :=
  let cfg := videoConfig this in
  let resolution := determineResolution cfg (snapWidth request) (snapHeight request) in
  let fcmd := snapshotCommand cfg resolution in
  try_catch
    (emit (Spawn (videoProcessor this) fcmd) ;;;
     match spawn with
     | SpawnThrows err => throw err
     | Spawned events =>
         log (Debug (debug cfg))
           ("Snapshot requested: " +:+ pretty (snapWidth request) +:+ "x" +:+
            pretty (snapHeight request)) ;;;
         log (Debug (debug cfg))
           ("Sending snapshot: " +:+ pretty (width resolution) +:+ "x" +:+
            pretty (height resolution)) ;;;
         log (Debug (debug cfg))
           ("Snapshot command: " +:+ videoProcessor this +:+ " " +:+ fcmd) ;;;
         snapshotHandlers this events []
     end)
    (λ err,
       log Err (Js.toString err) ;;;
       emit (SnapshotCallback (Some err) None)).

(** ** Address resolution: [getIpAddress] *)

Inductive Family := IPv4 | IPv6.

Definition Family_eqb (a b : Family) : bool :=
  match a, b with
  | IPv4, IPv4 | IPv6, IPv6 => true
  | _, _ => false
  end.

(** An entry of [os.networkInterfaces()]. *)
Record NetworkInterfaceInfo := {
  ifAddress : string;
  family : Family;
  internal : bool
}.

(** What the operating system answers: [networkInterfaceDefault()] of
    systeminformation and [os.networkInterfaces()]. *)
Record Os := {
  networkInterfaceDefault : string;
  networkInterfaces : gmap string (list NetworkInterfaceInfo)
}.

Definition dquote : string := String "034"%char EmptyString.

Definition preferredFamily (addressVersion : AddressVersion) : Family :=
  match addressVersion with
  | ipv6 => IPv6
  | ipv4 => IPv4
  end.

(** [interfaces[interfaceName]?.filter((info) => !info.internal)] *)
Definition externalInfo (os : Os) (interfaceName : string) : option (list NetworkInterfaceInfo) :=
  List.filter (λ info, negb (internal info)) <$> (networkInterfaces os !! interfaceName).

(** [externalInfo?.find(...) || externalInfo?.[0]] *)
Definition addressInfo (preferred : Family) (external : option (list NetworkInterfaceInfo))
    : option NetworkInterfaceInfo :=
  match external with
  | Some infos =>
      match List.find (λ info, Family_eqb (family info) preferred) infos with
      | Some info => Some info
      | None => head infos
      end
  | None => None
  end.

Definition getIpAddress (os : Os) (addressVersion : AddressVersion)
    (interfaceName : option string) : Js.Error + string :=
  let interfaceName :=
    if negb (Js.truthyStr interfaceName) then networkInterfaceDefault os
    else default EmptyString interfaceName in
  match addressInfo (preferredFamily addressVersion) (externalInfo os interfaceName) with
  | None =>
      inl (Js.PlainError
             ("Unable to get network address for " +:+ dquote +:+ interfaceName +:+
              dquote +:+ "!"))
  | Some info => inr (ifAddress info)
  end.

(** ** The session manager *)

(** What a setup request obtains from its environment: two ports from
    [getPort()], two synchronisation sources from the controller, and the
    operating system's view of the network. *)
Record PrepareEnv := {
  envVideoReturnPort : Z;
  envVideoSSRC : Z;
  envAudioReturnPort : Z;
  envAudioSSRC : Z;
  envOs : Os
}.

(** [Buffer.prototype.toString('base64')] *)

Definition base64Alphabet : string :=
  "ABCDEFGHIJKLMNOPQRSTUVWXYZabcdefghijklmnopqrstuvwxyz0123456789+/".

Definition base64Digit (n : N) : ascii :=
  default "="%char (String.get (N.to_nat n) base64Alphabet).

Fixpoint base64 (b : Buffer) : string :=
  match b with
  | [] => EmptyString
  | [x] =>
      let n := Byte.to_N x in
      String (base64Digit (n / 4))
        (String (base64Digit ((n mod 4) * 16)) "==")
  | [x; y] =>
      let n := Byte.to_N x in
      let m := Byte.to_N y in
      String (base64Digit (n / 4))
        (String (base64Digit ((n mod 4) * 16 + m / 16))
           (String (base64Digit ((m mod 16) * 4)) "="))
  | x :: y :: z :: rest =>
      let n := Byte.to_N x in
      let m := Byte.to_N y in
      let k := Byte.to_N z in
      String (base64Digit (n / 4))
        (String (base64Digit ((n mod 4) * 16 + m / 16))
           (String (base64Digit ((m mod 16) * 4 + k / 64))
              (String (base64Digit (k mod 64)) (base64 rest))))
  end%N.

Section Delegate.

(** The outcome of [stop()] on a supervisor: it returns ([None]) or
    throws. *)
Variable stopOutcome : FfmpegProcess → option Js.Error.

Variable this : StreamingDelegate.

(** The [sessionInfo] object built by [prepareStream]. *)
Definition prepareSessionInfo (env : PrepareEnv) (request : PrepareStreamRequest)
    : SessionInfo :=
  {| address := targetAddress request;
     videoPort := srcPort (prepVideo request);
     videoReturnPort := envVideoReturnPort env;
     videoCryptoSuite := srtpCryptoSuite (prepVideo request);
     videoSRTP := srtp_key (prepVideo request) ++ srtp_salt (prepVideo request);
     videoSSRC := envVideoSSRC env;
     audioPort := srcPort (prepAudio request);
     audioReturnPort := envAudioReturnPort env;
     audioCryptoSuite := srtpCryptoSuite (prepAudio request);
     audioSRTP := srtp_key (prepAudio request) ++ srtp_salt (prepAudio request);
     audioSSRC := envAudioSSRC env |}.

(** The [try]/[catch] of [prepareStream] that assigns [currentAddress]. *)
Definition currentAddress (env : PrepareEnv) (request : PrepareStreamRequest) : M string :=
  try_catch
    (liftResult (getIpAddress (envOs env) (addressVersion request) (interfaceName this)))
    (λ ex,
       if Js.truthyStr (interfaceName this) then
         log Warn (Js.toString ex +:+ " Falling back to default.") ;;;
         liftResult (getIpAddress (envOs env) (addressVersion request) None)
       else throw ex).

(** The [response] object built by [prepareStream]. *)
Definition prepareResponse (env : PrepareEnv) (request : PrepareStreamRequest)
    (currentAddress : string) : PrepareStreamResponse :=
  {| respAddress := currentAddress;
     respVideo := {| respPort := envVideoReturnPort env;
                     respSsrc := envVideoSSRC env;
                     respSrtpKey := srtp_key (prepVideo request);
                     respSrtpSalt := srtp_salt (prepVideo request) |};
     respAudio := {| respPort := envAudioReturnPort env;
                     respSsrc := envAudioSSRC env;
                     respSrtpKey := srtp_key (prepAudio request);
                     respSrtpSalt := srtp_salt (prepAudio request) |} |}.

Definition prepareStream (env : PrepareEnv) (request : PrepareStreamRequest) : M unit :=
  let sessionInfo := prepareSessionInfo env request in
  currentAddress <- currentAddress env request ;;
  let response := prepareResponse env request currentAddress in
  setPending (prepSessionID request) sessionInfo ;;;
  emit (PrepareCallback (prepSessionID request) response).

(** *** The command line of [startStream] *)

Definition ffmpegVideoArgs (request : StartStreamRequest) : string :=
  let cfg := videoConfig this in
  let vcodec := Js.orStr (vcodec cfg) "libx264" in
  let fps := fps cfg (reqFps (video request)) in
  let mapvideo := Js.orStr (mapvideo cfg) "0:0" in
  let additionalCommandline :=
    Js.orStr (additionalCommandline cfg) "-preset ultrafast -tune zerolatency" in
  let resolution :=
    determineResolution cfg (reqWidth (video request)) (reqHeight (video request)) in
  let videoBitrate := videoBitrate cfg (videoMaxBitRate (video request)) in
  " -map " +:+ mapvideo +:+
  " -vcodec " +:+ vcodec +:+
  " -pix_fmt yuv420p" +:+
  " -r " +:+ pretty fps +:+
  " -f rawvideo" +:+
  " " +:+ additionalCommandline +:+
  (if negb (String.eqb vcodec "copy") &&
      negb (String.eqb (resVideoFilter resolution) EmptyString)
   then " -vf " +:+ resVideoFilter resolution else EmptyString) +:+
  " -b:v " +:+ pretty videoBitrate +:+ "k" +:+
  " -bufsize " +:+ pretty (2 * videoBitrate) +:+ "k" +:+
  " -maxrate " +:+ pretty videoBitrate +:+ "k" +:+
  " -payload_type " +:+ pretty (videoPt (video request)).

Definition ffmpegVideoStream (sessionInfo : SessionInfo) : string :=
  let mtu := mtu (videoConfig this) in
  " -ssrc " +:+ pretty (videoSSRC sessionInfo) +:+
  " -f rtp" +:+
  " -srtp_out_suite AES_CM_128_HMAC_SHA1_80" +:+
  " -srtp_out_params " +:+ base64 (videoSRTP sessionInfo) +:+
  " srtp://" +:+ address sessionInfo +:+ ":" +:+ pretty (videoPort sessionInfo) +:+
  "?rtcpport=" +:+ pretty (videoPort sessionInfo) +:+
  "&localrtcpport=" +:+ pretty (videoPort sessionInfo) +:+
  "&pkt_size=" +:+ pretty mtu.

Definition ffmpegAudioArgs (request : StartStreamRequest) : string :=
  let cfg := videoConfig this in
  let mapaudio := Js.orStr (mapaudio cfg) "0:1" in
  let audioBitrate := audioBitrate cfg (audioMaxBitRate (audioReq request)) in
  " -map " +:+ mapaudio +:+
  " -acodec libfdk_aac" +:+
  " -profile:a aac_eld" +:+
  " -flags +global_header" +:+
  " -f null" +:+
  " -ar " +:+ pretty (sample_rate (audioReq request)) +:+ "k" +:+
  " -b:a " +:+ pretty audioBitrate +:+ "k" +:+
  " -bufsize " +:+ pretty audioBitrate +:+ "k" +:+
  " -ac 1" +:+
  " -payload_type " +:+ pretty (audioPt (audioReq request)).

Definition ffmpegAudioStream (sessionInfo : SessionInfo) : string :=
  " -ssrc " +:+ pretty (audioSSRC sessionInfo) +:+
  " -f rtp" +:+
  " -srtp_out_suite AES_CM_128_HMAC_SHA1_80" +:+
  " -srtp_out_params " +:+ base64 (audioSRTP sessionInfo) +:+
  " srtp://" +:+ address sessionInfo +:+ ":" +:+ pretty (audioPort sessionInfo) +:+
  "?rtcpport=" +:+ pretty (audioPort sessionInfo) +:+
  "&localrtcpport=" +:+ pretty (audioPort sessionInfo) +:+
  "&pkt_size=188".

(** The final value of [fcmd] in [startStream]. *)
Definition fcmd (request : StartStreamRequest) (sessionInfo : SessionInfo) : string :=
  let cfg := videoConfig this in
  source cfg +:+
  ffmpegVideoArgs request +:+
  ffmpegVideoStream sessionInfo +:+
  (if audio cfg
   then ffmpegAudioArgs request +:+ ffmpegAudioStream sessionInfo
   else EmptyString) +:+
  (if debug cfg then " -loglevel level+verbose" else EmptyString).

(** [new FfmpegProcess(this.name, request.sessionID, this.videoProcessor,
    fcmd, this.log, sessionInfo.videoReturnPort, this.videoConfig.debug,
    this, callback)] *)
Definition newFfmpegProcess (request : StartStreamRequest) (sessionInfo : SessionInfo)
    : FfmpegProcess :=
  {| procTitle := name this;
     procSessionId := startSessionID request;
     procCommand := videoProcessor this;
     procArgs := fcmd request sessionInfo;
     procReturnPort := videoReturnPort sessionInfo;
     procDebug := debug (videoConfig this) |}.

(** *** [startStream]

    [sessionInfo] is read from the pending table without a check; its
    first use, [sessionInfo.videoSSRC], throws a [TypeError] when the
    lookup gave [undefined]. The two log calls precede that use. *)
Definition startStream (request : StartStreamRequest) : M unit :=
  let cfg := videoConfig this in
  st <- get ;;
  let sessionInfo := pendingSessions st !! startSessionID request in
  let resolution :=
    determineResolution cfg (reqWidth (video request)) (reqHeight (video request)) in
  log (Debug (debug cfg))
    ("Video stream requested: " +:+ pretty (reqWidth (video request)) +:+ "x" +:+
     pretty (reqHeight (video request)) +:+ ", " +:+
     pretty (reqFps (video request)) +:+ " fps, " +:+
     pretty (videoMaxBitRate (video request)) +:+ " kbps") ;;;
  log Info
    ("Starting video stream: " +:+ pretty (width resolution) +:+ "x" +:+
     pretty (height resolution) +:+ ", " +:+
     pretty (fps cfg (reqFps (video request))) +:+ " fps, " +:+
     pretty (videoBitrate cfg (videoMaxBitRate (video request))) +:+ " kbps") ;;;
  match sessionInfo with
  | None => throw (Js.TypeError "Cannot read property 'videoSSRC' of undefined")
  | Some sessionInfo =>
      let ffmpeg := newFfmpegProcess request sessionInfo in
      emit (NewFfmpegProcess ffmpeg) ;;;
      setOngoing (startSessionID request) ffmpeg ;;;
      deletePending (startSessionID request)
  end.

(** *** [stopStream] *)

(** [ffmpegProcess.stop()] *)
Definition processStop (ffmpegProcess : FfmpegProcess) : M unit :=
  emit (ProcessStop ffmpegProcess) ;;;
  match stopOutcome ffmpegProcess with
  | Some err => throw err
  | None => ret tt
  end.

Definition stopStream (sessionId : string) : M unit :=
  try_catch
    (st <- get ;;
     match ongoingSessions st !! sessionId with
     | Some ffmpegProcess => processStop ffmpegProcess
     | None => ret tt
     end ;;;
     deleteOngoing sessionId ;;;
     log Info "Stopped video stream.")
    (λ err,
       log Err ("Error occurred terminating video process: " +:+ Js.toString err)).

(** *** [handleStreamRequest] *)

Definition handleStreamRequest (request : StreamingRequest) : M unit :=
  match request with
  | START request => startStream request
  | RECONFIGURE sessionID video =>
      log (Debug (debug (videoConfig this)))
        ("Received request to reconfigure: " +:+ pretty (reqWidth video) +:+ "x" +:+
         pretty (reqHeight video) +:+ ", " +:+ pretty (reqFps video) +:+ " fps, " +:+
         pretty (videoMaxBitRate video) +:+ " kbps (Ignored)") ;;;
      emit (StreamCallback sessionID)
  | STOP sessionID =>
      stopStream sessionID ;;;
      emit (StreamCallback sessionID)
  end.

End Delegate.

(** ** Reading a run *)

(** The number of entries a table holds for a session identifier. *)
Definition entries {V} (table : gmap string V) (sessionId : string) : nat :=
  length (filter (λ kv, fst kv = sessionId) (map_to_list table)).

(** The supervisors on which [stop()] was invoked, in order. *)
Definition terminations (tr : list Effect) : list FfmpegProcess :=
  omap (λ e, match e with ProcessStop p => Some p | _ => None end) tr.

(** The invocations of the snapshot callback, in order. *)
Definition snapshotCallbacks (tr : list Effect) : list (option Js.Error * option Buffer) :=
  omap (λ e, match e with SnapshotCallback err img => Some (err, img) | _ => None end) tr.

(** The invocations of the stream-request callback, in order. *)
Definition streamCallbacks (tr : list Effect) : list string :=
  omap (λ e, match e with StreamCallback s => Some s | _ => None end) tr.

Definition warnings (tr : list Effect) : list string :=
  omap (λ e, match e with Log Warn m => Some m | _ => None end) tr.

(** A command-line segment closes with the given text. *)
Definition endsWith (segment text : string) : Prop :=
  ∃ before, segment = before +:+ text.

Definition run {A} (m : M A) (st : State) : State := fst (m st).
Definition outcome {A} (m : M A) (st : State) : Js.Error + A := snd (m st).

(** The invocations of the setup callback, in order. *)
Definition prepareCallbacks (tr : list Effect) : list (string * PrepareStreamResponse) :=
  omap (λ e, match e with PrepareCallback s r => Some (s, r) | _ => None end) tr.

(** The supervisors created, in order. *)
Definition newProcesses (tr : list Effect) : list FfmpegProcess :=
  omap (λ e, match e with NewFfmpegProcess p => Some p | _ => None end) tr.

(** The commands handed to [spawn], in order. *)
Definition spawns (tr : list Effect) : list (string * string) :=
  omap (λ e, match e with Spawn c a => Some (c, a) | _ => None end) tr.

(** The messages logged as errors, in order. *)
Definition errorsLogged (tr : list Effect) : list string :=
  omap (λ e, match e with Log Err m => Some m | _ => None end) tr.

(** A command line has the given text somewhere in it. *)
Definition hasSegment (command text : string) : Prop :=
  ∃ before after, command = before +:+ text +:+ after.

(** ** Shutdown *)

Section Shutdown.

Variable stopOutcome : FfmpegProcess → option Js.Error.

(** The loop of the shutdown handler,
    [for (const session in this.ongoingSessions) this.stopStream(session)],
    run over the identifiers in the order the loop enumerates them. The
    body deletes no entry but the one it is visiting, so the loop visits
    every identifier that is in the table when it starts. *)
Fixpoint stopAll (sessions : list string) : M unit :=
  match sessions with
  | [] => ret tt
  | session :: rest => stopStream stopOutcome session ;;; stopAll rest
  end.

(** What a stop leaves of an ongoing entry: the entry itself when the
    supervisor's [stop()] throws, nothing otherwise. *)
Definition leftByStop (entry : option FfmpegProcess) : option FfmpegProcess :=
  match entry with
  | Some p =>
      match stopOutcome p with
      | Some _ => Some p
      | None => None
      end
  | None => None
  end.

End Shutdown.

(** ** Sample data *)

Module Sample.

Definition config : VideoConfig :=
  {| source := "-rtsp_transport tcp -i rtsp://192.168.1.20/live";
     stillImageSource := None;
     maxStreams := Some 2;
     maxWidth := Some 1280;
     maxHeight := Some 720;
     maxFPS := Some 30;
     maxBitrate := Some 2000;
     minBitrate := Some 500;
     preserveRatio := None;
     vcodec := None;
     packetSize := None;
     videoFilter := None;
     additionalCommandline := None;
     mapvideo := None;
     mapaudio := None;
     audio := true;
     vflip := false;
     hflip := false;
     debug := false |}.

Definition withFlips (h v : bool) (c : VideoConfig) : VideoConfig :=
  {| source := source c; stillImageSource := stillImageSource c;
     maxStreams := maxStreams c; maxWidth := maxWidth c; maxHeight := maxHeight c;
     maxFPS := maxFPS c; maxBitrate := maxBitrate c; minBitrate := minBitrate c;
     preserveRatio := preserveRatio c; vcodec := vcodec c; packetSize := packetSize c;
     videoFilter := videoFilter c; additionalCommandline := additionalCommandline c;
     mapvideo := mapvideo c; mapaudio := mapaudio c; audio := audio c;
     vflip := v; hflip := h; debug := debug c |}.

Definition withFilter (f : option string) (ratio : option string) (c : VideoConfig)
    : VideoConfig :=
  {| source := source c; stillImageSource := stillImageSource c;
     maxStreams := maxStreams c; maxWidth := maxWidth c; maxHeight := maxHeight c;
     maxFPS := maxFPS c; maxBitrate := maxBitrate c; minBitrate := minBitrate c;
     preserveRatio := ratio; vcodec := vcodec c; packetSize := packetSize c;
     videoFilter := f; additionalCommandline := additionalCommandline c;
     mapvideo := mapvideo c; mapaudio := mapaudio c; audio := audio c;
     vflip := vflip c; hflip := hflip c; debug := debug c |}.

Definition camera : StreamingDelegate :=
  {| name := "Front Door";
     videoConfig := config;
     videoProcessor := "ffmpeg";
     interfaceName := None |}.

Definition cameraOn (iface : string) : StreamingDelegate :=
  {| name := "Front Door";
     videoConfig := config;
     videoProcessor := "ffmpeg";
     interfaceName := Some iface |}.

Definition session : SessionInfo :=
  {| address := "192.168.1.50";
     videoPort := 50000;
     videoReturnPort := 51000;
     videoCryptoSuite := AES_CM_128_HMAC_SHA1_80;
     videoSRTP := [Byte.x73; Byte.x72; Byte.x74; Byte.x70];
     videoSSRC := 1111;
     audioPort := 50002;
     audioReturnPort := 51002;
     audioCryptoSuite := AES_CM_128_HMAC_SHA1_80;
     audioSRTP := [Byte.x4d; Byte.x61; Byte.x6e];
     audioSSRC := 2222 |}.

Definition start : StartStreamRequest :=
  {| startSessionID := "S1";
     video := {| reqWidth := 1920; reqHeight := 1080; reqFps := 60;
                 videoMaxBitRate := 4000; videoPt := 99 |};
     audioReq := {| audioMaxBitRate := 24; sample_rate := 16; audioPt := 110 |} |}.

Definition media (port : Z) (key salt : Buffer) : SourceInfo :=
  {| srcPort := port; srtpCryptoSuite := AES_CM_128_HMAC_SHA1_80;
     srtp_key := key; srtp_salt := salt |}.

Definition setup : PrepareStreamRequest :=
  {| prepSessionID := "S1";
     targetAddress := "192.168.1.50";
     addressVersion := ipv4;
     prepVideo := media 50000 [Byte.x73; Byte.x72] [Byte.x74; Byte.x70];
     prepAudio := media 50002 [Byte.x4d; Byte.x61] [Byte.x6e] |}.

Definition eth0 : list NetworkInterfaceInfo :=
  [ {| ifAddress := "fe80::1c2d"; family := IPv6; internal := false |};
    {| ifAddress := "192.168.1.10"; family := IPv4; internal := false |} ].

Definition lo : list NetworkInterfaceInfo :=
  [ {| ifAddress := "127.0.0.1"; family := IPv4; internal := true |} ].

Definition os : Os :=
  {| networkInterfaceDefault := "eth0";
     networkInterfaces := {[ "eth0" := eth0; "lo" := lo ]} |}.

(** A host whose default interface has no address. *)
Definition offlineEnv : PrepareEnv :=
  {| envVideoReturnPort := 51000;
     envVideoSSRC := 1111;
     envAudioReturnPort := 51002;
     envAudioSSRC := 2222;
     envOs := {| networkInterfaceDefault := "eth0";
                 networkInterfaces := {[ "lo" := lo ]} |} |}.

Definition env : PrepareEnv :=
  {| envVideoReturnPort := 51000;
     envVideoSSRC := 1111;
     envAudioReturnPort := 51002;
     envAudioSSRC := 2222;
     envOs := os |}.

(** The tables after the sample setup request. *)
Definition pendingState : State :=
  {| pendingSessions := {[ "S1" := session ]}; ongoingSessions := ∅; trace := [] |}.

Definition process : FfmpegProcess := newFfmpegProcess camera start session.

(** The tables after the sample start request. *)
Definition ongoingState : State :=
  {| pendingSessions := ∅; ongoingSessions := {[ "S1" := process ]}; trace := [] |}.

(** A supervisor whose [stop()] returns. *)
Definition stopReturns (p : FfmpegProcess) : option Js.Error := None.

(** A supervisor whose [stop()] throws. *)
Definition stopThrows (p : FfmpegProcess) : option Js.Error :=
  Some (Js.PlainError "kill EPERM").

(** The sample setup request, asking for an IPv6 address. *)
Definition setup6 : PrepareStreamRequest :=
  {| prepSessionID := "S1";
     targetAddress := "192.168.1.50";
     addressVersion := ipv6;
     prepVideo := media 50000 [Byte.x73; Byte.x72] [Byte.x74; Byte.x70];
     prepAudio := media 50002 [Byte.x4d; Byte.x61] [Byte.x6e] |}.

(** An interface with an internal IPv4 address and one IPv6 address. *)
Definition tun0 : list NetworkInterfaceInfo :=
  [ {| ifAddress := "127.0.0.2"; family := IPv4; internal := true |};
    {| ifAddress := "fd00::7"; family := IPv6; internal := false |} ].

(** A host whose only interface is that one. *)
Definition tunnelEnv : PrepareEnv :=
  {| envVideoReturnPort := 51000;
     envVideoSSRC := 1111;
     envAudioReturnPort := 51002;
     envAudioSSRC := 2222;
     envOs := {| networkInterfaceDefault := "tun0";
                 networkInterfaces := {[ "tun0" := tun0 ]} |} |}.

(** A second session, set up by another controller. *)
Definition otherSession : SessionInfo :=
  {| address := "192.168.1.60";
     videoPort := 50010;
     videoReturnPort := 51010;
     videoCryptoSuite := AES_CM_128_HMAC_SHA1_80;
     videoSRTP := [Byte.x01; Byte.x02; Byte.x03];
     videoSSRC := 3333;
     audioPort := 50012;
     audioReturnPort := 51012;
     audioCryptoSuite := AES_CM_128_HMAC_SHA1_80;
     audioSRTP := [Byte.x04; Byte.x05; Byte.x06];
     audioSSRC := 4444 |}.

Definition otherStart : StartStreamRequest :=
  {| startSessionID := "S2";
     video := {| reqWidth := 640; reqHeight := 480; reqFps := 15;
                 videoMaxBitRate := 300; videoPt := 99 |};
     audioReq := {| audioMaxBitRate := 24; sample_rate := 16; audioPt := 110 |} |}.

Definition otherProcess : FfmpegProcess := newFfmpegProcess camera otherStart otherSession.

(** Two sessions streaming, and a third one set up. *)
Definition busyState : State :=
  {| pendingSessions := {[ "S3" := session ]};
     ongoingSessions := {[ "S1" := process; "S2" := otherProcess ]};
     trace := [] |}.

(** A supervisor for "S2" whose [stop()] throws, all others return. *)
Definition stopThrowsOnS2 (p : FfmpegProcess) : option Js.Error :=
  if String.eqb (procSessionId p) "S2" then Some (Js.PlainError "kill EPERM") else None.

End Sample.

(** * Properties *)

(** ** Negotiation *)

Section NegotiationFacts.

Variable cfg : VideoConfig.

Lemma capAt_min (a c : Z) : Js.capAt a (Some c) = Z.min a c.
Proof. unfold Js.capAt. destruct (Z.gtb_spec a c); lia. Qed.

Lemma capAt_unset (a : Z) : Js.capAt a None = a.
Proof. reflexivity. Qed.

Lemma scale_is_not_none (r : string) : String.eqb ("scale=" +:+ r) "none" = false.
Proof. reflexivity. Qed.

Lemma configFilter_override (f : string) :
  videoFilter cfg = Some f → f ≠ EmptyString → configFilter cfg = Some f.
Proof.
  intros Hf Hne. unfold configFilter. rewrite Hf. cbn.
  apply String.eqb_neq in Hne. by rewrite Hne.
Qed.

Lemma configFilter_default :
  videoFilter cfg = None ∨ videoFilter cfg = Some EmptyString → configFilter cfg = None.
Proof. unfold configFilter. by intros [-> | ->]. Qed.

Lemma baseFilter_override (f : string) (w h : Z) :
  videoFilter cfg = Some f → f ≠ EmptyString → baseFilter cfg w h = f.
Proof.
  intros Hf Hne. unfold baseFilter. rewrite (configFilter_override f Hf Hne).
  apply String.eqb_neq in Hne. by rewrite Hne.
Qed.

Lemma baseFilter_default (w h : Z) :
  videoFilter cfg = None ∨ videoFilter cfg = Some EmptyString →
  baseFilter cfg w h = "scale=" +:+ resolution cfg w h.
Proof. intros H. unfold baseFilter. by rewrite (configFilter_default H). Qed.

Lemma vf_emitted (w h : Z) :
  baseFilter cfg w h ≠ "none" →
  vf cfg w h = flipDirectives cfg ++ [baseFilter cfg w h].
Proof. intros H. unfold vf. apply String.eqb_neq in H. by rewrite H. Qed.

Lemma vf_suppressed (w h : Z) : baseFilter cfg w h = "none" → vf cfg w h = [].
Proof. intros H. unfold vf. by rewrite H. Qed.

Lemma flipDirectives_are_flips :
  Forall (λ d, d = "hflip" ∨ d = "vflip") (flipDirectives cfg).
Proof.
  unfold flipDirectives.
  destruct (vflip cfg), (hflip cfg); cbn;
    repeat apply List.Forall_cons; try apply List.Forall_nil; auto.
Qed.

Lemma flipDirectives_length :
  length (flipDirectives cfg) =
  ((if vflip cfg then 1 else 0) + (if hflip cfg then 1 else 0))%nat.
Proof. unfold flipDirectives. by destruct (vflip cfg), (hflip cfg). Qed.

End NegotiationFacts.

(** C7. Where a cap is configured, the negotiated width is
    [min(requested, maxWidth)], the negotiated height is
    [min(requested, maxHeight)] and the frame rate of the start path is
    [min(requested, maxFPS)]; a value at or below its cap passes through
    unchanged. *)
Theorem resolution_and_fps_are_capped (cfg : VideoConfig) (w h f : Z) :
  (∀ mw, maxWidth cfg = Some mw →
     width (determineResolution cfg w h) = Z.min w mw ∧
     (w ≤ mw → width (determineResolution cfg w h) = w)) ∧
  (∀ mh, maxHeight cfg = Some mh →
     height (determineResolution cfg w h) = Z.min h mh ∧
     (h ≤ mh → height (determineResolution cfg w h) = h)) ∧
  (∀ mf, maxFPS cfg = Some mf →
     fps cfg f = Z.min f mf ∧ (f ≤ mf → fps cfg f = f)).
Proof.
  unfold determineResolution, fps. cbn [width height].
  refine (conj _ (conj _ _)); intros m ->; rewrite capAt_min; split; lia.
Qed.

Lemma resolution_and_fps_are_capped_witness :
  (width (determineResolution Sample.config 1920 480) = Z.min 1920 1280 ∧
   height (determineResolution Sample.config 1920 480) = Z.min 480 720 ∧
   fps Sample.config 60 = Z.min 60 30) ∧
  (width (determineResolution Sample.config 640 480) = 640 ∧
   height (determineResolution Sample.config 640 480) = 480 ∧
   fps Sample.config 30 = 30).
Proof.
  pose proof (resolution_and_fps_are_capped Sample.config 1920 480 60) as (Hw & Hh & Hf).
  pose proof (resolution_and_fps_are_capped Sample.config 640 480 30) as (Hw' & Hh' & Hf').
  refine (conj (conj _ (conj _ _)) (conj _ (conj _ _))).
  - exact (proj1 (Hw 1280 eq_refl)).
  - exact (proj1 (Hh 720 eq_refl)).
  - exact (proj1 (Hf 30 eq_refl)).
  - apply (proj2 (Hw' 1280 eq_refl)). lia.
  - apply (proj2 (Hh' 720 eq_refl)). lia.
  - apply (proj2 (Hf' 30 eq_refl)). lia.
Defined.

(** Without a cap the requested value is kept. *)
Lemma uncapped_values_pass_through (cfg : VideoConfig) (w h f : Z) :
  (maxWidth cfg = None → width (determineResolution cfg w h) = w) ∧
  (maxHeight cfg = None → height (determineResolution cfg w h) = h) ∧
  (maxFPS cfg = None → fps cfg f = f).
Proof.
  unfold determineResolution, fps. cbn [width height].
  refine (conj _ (conj _ _)); by intros ->.
Qed.

(** A cap is in force when it is set to a number that JS takes as true. *)
Lemma truthyNum_set (v : option Z) (n : Z) :
  v = Some n → n ≠ 0 → Js.truthyNum v = true.
Proof. intros -> Hn. cbn. apply negb_true_iff. lia. Qed.

Lemma max_not_exceeded (cap : option Z) (v : Z) :
  (∀ mx, cap = Some mx → mx ≠ 0 → v ≤ mx) →
  Js.truthyNum cap && Js.gt v cap = false.
Proof.
  intros H. destruct cap as [mx|]; [| done]. cbn.
  destruct (Z.eqb_spec mx 0); [done |]. cbn.
  specialize (H mx eq_refl n). destruct (Z.gtb_spec v mx); [lia | done].
Qed.

Lemma min_not_undercut (floor : option Z) (v : Z) :
  (∀ mn, floor = Some mn → mn ≠ 0 → mn ≤ v) →
  Js.truthyNum floor && Js.lt v floor = false.
Proof.
  intros H. destruct floor as [mn|]; [| done]. cbn.
  destruct (Z.eqb_spec mn 0); [done |]. cbn.
  specialize (H mn eq_refl n). destruct (Z.ltb_spec v mn); [lia | done].
Qed.

(** C6. A maximum or minimum bitrate is in force when it is set and not
    zero. The video bitrate is the maximum when one is in force and the
    request exceeds it; failing that, the minimum when one is in force and
    the request is below it; the request otherwise. The audio bitrate is
    the maximum when one is in force and the request exceeds it, and the
    request otherwise: it is never above the request, whatever minimum is
    configured. *)
Theorem bitrate_clamping (cfg : VideoConfig) (v a : Z) :
  (∀ mx, maxBitrate cfg = Some mx → mx ≠ 0 → v > mx → videoBitrate cfg v = mx) ∧
  (∀ mn, minBitrate cfg = Some mn → mn ≠ 0 → v < mn →
         (∀ mx, maxBitrate cfg = Some mx → mx ≠ 0 → v ≤ mx) →
         videoBitrate cfg v = mn) ∧
  ((∀ mx, maxBitrate cfg = Some mx → mx ≠ 0 → v ≤ mx) →
   (∀ mn, minBitrate cfg = Some mn → mn ≠ 0 → mn ≤ v) →
   videoBitrate cfg v = v) ∧
  (∀ mx, maxBitrate cfg = Some mx → mx ≠ 0 → a > mx → audioBitrate cfg a = mx) ∧
  ((∀ mx, maxBitrate cfg = Some mx → mx ≠ 0 → a ≤ mx) → audioBitrate cfg a = a) ∧
  audioBitrate cfg a ≤ a.
Proof.
  unfold videoBitrate, audioBitrate.
  refine (conj _ (conj _ (conj _ (conj _ (conj _ _))))).
  - intros mx Hmx Hne Hgt. rewrite (truthyNum_set _ _ Hmx Hne), Hmx. cbn.
    destruct (Z.gtb_spec v mx); [done | lia].
  - intros mn Hmn Hne Hlt Hmax. rewrite (max_not_exceeded _ _ Hmax).
    rewrite (truthyNum_set _ _ Hmn Hne), Hmn. cbn.
    destruct (Z.ltb_spec v mn); [done | lia].
  - intros Hmax Hmin.
    by rewrite (max_not_exceeded _ _ Hmax), (min_not_undercut _ _ Hmin).
  - intros mx Hmx Hne Hgt. rewrite (truthyNum_set _ _ Hmx Hne), Hmx. cbn.
    destruct (Z.gtb_spec a mx); [done | lia].
  - intros Hmax. by rewrite (max_not_exceeded _ _ Hmax).
  - destruct (maxBitrate cfg) as [mx|]; cbn; [| lia].
    destruct (negb (mx =? 0)); cbn; [| lia].
    destruct (Z.gtb_spec a mx); cbn; lia.
Qed.

Lemma bitrate_clamping_witness :
  videoBitrate Sample.config 4000 = 2000 ∧
  videoBitrate Sample.config 100 = 500 ∧
  videoBitrate Sample.config 1000 = 1000 ∧
  audioBitrate Sample.config 4000 = 2000 ∧
  audioBitrate Sample.config 24 = 24.
Proof.
  pose proof (bitrate_clamping Sample.config 4000 4000) as (Hmax & _ & _ & Hamax & _).
  pose proof (bitrate_clamping Sample.config 100 24) as (_ & Hmin & _ & _ & Hakeep & _).
  pose proof (bitrate_clamping Sample.config 1000 24) as (_ & _ & Hkeep & _).
  refine (conj _ (conj _ (conj _ (conj _ _)))).
  - apply (Hmax 2000); [reflexivity | lia | lia].
  - apply (Hmin 500); [reflexivity | lia | lia |].
    intros mx [= <-] _. lia.
  - apply Hkeep.
    + intros mx [= <-] _. lia.
    + intros mn [= <-] _. lia.
  - apply (Hamax 2000); [reflexivity | lia | lia].
  - apply Hakeep. intros mx [= <-] _. lia.
Defined.

(** C5. A configured filter that is neither empty nor ['none'] is emitted
    verbatim after the flip directives; the filter ['none'] gives an empty
    [videoFilter], without scale and without flips; an absent or empty
    filter gives a scale directive built from the capped dimensions:
    [scale=<width>:-1] for ['W'], [scale=-1:<height>] for ['H'] and
    [scale=<width>:<height>] otherwise. *)
Theorem filter_determination (cfg : VideoConfig) (w h : Z) :
  let r := determineResolution cfg w h in
  (∀ f, videoFilter cfg = Some f → f ≠ EmptyString → f ≠ "none" →
        resVideoFilter r = Js.join "," (flipDirectives cfg ++ [f])) ∧
  (videoFilter cfg = Some "none" → resVideoFilter r = EmptyString) ∧
  (videoFilter cfg = None ∨ videoFilter cfg = Some EmptyString →
   (preserveRatio cfg = Some "W" →
    resVideoFilter r =
    Js.join "," (flipDirectives cfg ++ ["scale=" +:+ pretty (width r) +:+ ":-1"])) ∧
   (preserveRatio cfg = Some "H" →
    resVideoFilter r =
    Js.join "," (flipDirectives cfg ++ ["scale=" +:+ "-1:" +:+ pretty (height r)])) ∧
   (preserveRatio cfg ≠ Some "W" → preserveRatio cfg ≠ Some "H" →
    resVideoFilter r =
    Js.join ","
      (flipDirectives cfg ++
       ["scale=" +:+ pretty (width r) +:+ ":" +:+ pretty (height r)]))).
Proof.
  cbn zeta. unfold determineResolution. cbn [resVideoFilter width height].
  set (cw := Js.capAt w (maxWidth cfg)). set (ch := Js.capAt h (maxHeight cfg)).
  refine (conj _ (conj _ _)).
  - intros f Hf Hne Hnone.
    rewrite vf_emitted; rewrite (baseFilter_override cfg f cw ch Hf Hne); done.
  - intros Hf. rewrite vf_suppressed; [done |].
    by apply baseFilter_override.
  - intros Hdef.
    assert (Hemit : ∀ s, resolution cfg cw ch = s →
              Js.join "," (vf cfg cw ch) =
              Js.join "," (flipDirectives cfg ++ ["scale=" +:+ s])).
    { intros s <-. rewrite vf_emitted; rewrite (baseFilter_default cfg cw ch Hdef).
      - done.
      - apply String.eqb_neq, scale_is_not_none. }
    refine (conj _ (conj _ _)).
    + intros Hr. apply Hemit. unfold resolution. by rewrite Hr.
    + intros Hr. apply Hemit. unfold resolution. by rewrite Hr.
    + intros HW HH. apply Hemit. unfold resolution.
      destruct (preserveRatio cfg) as [r|]; [| done].
      destruct (String.eqb_spec r "W") as [-> | _]; [done |].
      destruct (String.eqb_spec r "H") as [-> | _]; done.
Qed.

Lemma filter_determination_witness :
  resVideoFilter
    (determineResolution (Sample.withFilter (Some "crop=640:360:0:60") None Sample.config)
       1920 1080) = "crop=640:360:0:60" ∧
  resVideoFilter
    (determineResolution (Sample.withFilter (Some "none") None Sample.config) 1920 1080)
  = EmptyString ∧
  resVideoFilter
    (determineResolution (Sample.withFilter None (Some "W") Sample.config) 1920 1080)
  = "scale=1280:-1" ∧
  resVideoFilter
    (determineResolution (Sample.withFilter (Some EmptyString) (Some "H") Sample.config)
       1920 1080) = "scale=-1:720" ∧
  resVideoFilter
    (determineResolution (Sample.withFilter None None Sample.config) 640 480)
  = "scale=640:480".
Proof.
  refine (conj _ (conj _ (conj _ (conj _ _)))).
  - apply (filter_determination
             (Sample.withFilter (Some "crop=640:360:0:60") None Sample.config) 1920 1080);
      [reflexivity | discriminate | discriminate].
  - apply (filter_determination
             (Sample.withFilter (Some "none") None Sample.config) 1920 1080).
    reflexivity.
  - apply (filter_determination
             (Sample.withFilter None (Some "W") Sample.config) 1920 1080);
      [left; reflexivity | reflexivity].
  - apply (filter_determination
             (Sample.withFilter (Some EmptyString) (Some "H") Sample.config) 1920 1080);
      [right; reflexivity | reflexivity].
  - apply (filter_determination
             (Sample.withFilter None None Sample.config) 640 480);
      [left; reflexivity | discriminate | discriminate].
Defined.

(** C4. Whenever a filter is emitted, one flip flag alone puts the flip of
    the other axis in front of it: [hflip] alone emits [vflip], [vflip]
    alone emits [hflip]; both flags emit [hflip,vflip] in front of it. *)
Theorem flip_wiring_is_crossed (cfg : VideoConfig) (w h : Z) :
  let r := determineResolution cfg w h in
  let f := baseFilter cfg (width r) (height r) in
  f ≠ "none" →
  (hflip cfg = true → vflip cfg = false → resVideoFilter r = "vflip," +:+ f) ∧
  (hflip cfg = false → vflip cfg = true → resVideoFilter r = "hflip," +:+ f) ∧
  (hflip cfg = true → vflip cfg = true → resVideoFilter r = "hflip,vflip," +:+ f).
Proof.
  cbn zeta. unfold determineResolution. cbn [resVideoFilter width height].
  intros Hemit. rewrite (vf_emitted cfg _ _ Hemit). unfold flipDirectives.
  refine (conj _ (conj _ _)); intros -> ->; reflexivity.
Qed.

Lemma flip_wiring_is_crossed_witness :
  resVideoFilter (determineResolution (Sample.withFlips true false Sample.config) 1920 1080)
  = "vflip,scale=1280:720" ∧
  resVideoFilter (determineResolution (Sample.withFlips false true Sample.config) 1920 1080)
  = "hflip,scale=1280:720" ∧
  resVideoFilter (determineResolution (Sample.withFlips true true Sample.config) 1920 1080)
  = "hflip,vflip,scale=1280:720".
Proof.
  refine (conj _ (conj _ _)).
  - apply (flip_wiring_is_crossed (Sample.withFlips true false Sample.config) 1920 1080);
      [discriminate | reflexivity | reflexivity].
  - apply (flip_wiring_is_crossed (Sample.withFlips false true Sample.config) 1920 1080);
      [discriminate | reflexivity | reflexivity].
  - apply (flip_wiring_is_crossed (Sample.withFlips true true Sample.config) 1920 1080);
      [discriminate | reflexivity | reflexivity].
Defined.

(** ** Session tables *)

Ltac step_monad :=
  unfold run, outcome, try_catch, bind, get, liftResult, setPending, deletePending,
    setOngoing, deleteOngoing, log, emit, modify, ret, throw in *;
  cbn [fst snd pendingSessions ongoingSessions trace] in *.

Section Entries.

Context {V : Type}.
Implicit Types (table : gmap string V) (sessionId : string).

Lemma entries_absent table sessionId :
  table !! sessionId = None → entries table sessionId = 0%nat.
Proof.
  intros Hnone. unfold entries.
  assert (Hall : Forall (λ kv : string * V, kv.1 ≠ sessionId) (map_to_list table)).
  { apply Forall_forall. intros [k v] Hin%elem_of_map_to_list. cbn. congruence. }
  induction Hall as [| kv l Hkv _ IH]; [done |].
  by rewrite filter_cons_False.
Qed.

Lemma entries_present table sessionId v :
  table !! sessionId = Some v → entries table sessionId = 1%nat.
Proof.
  intros Hsome. unfold entries.
  rewrite <- (map_to_list_delete _ _ _ Hsome).
  rewrite filter_cons_True by done. cbn. f_equal.
  apply (entries_absent (delete sessionId table)), lookup_delete_eq.
Qed.

Lemma entries_one table sessionId :
  entries table sessionId = 1%nat ↔ is_Some (table !! sessionId).
Proof.
  split.
  - destruct (table !! sessionId) eqn:E; [eauto |].
    rewrite (entries_absent _ _ E). discriminate.
  - intros [v Hv]. by eapply entries_present.
Qed.

Lemma entries_zero table sessionId :
  entries table sessionId = 0%nat ↔ table !! sessionId = None.
Proof.
  split; [| apply entries_absent].
  destruct (table !! sessionId) eqn:E; [| done].
  rewrite (entries_present _ _ _ E). discriminate.
Qed.

End Entries.

Section StopFacts.

Variable stopOutcome : FfmpegProcess → option Js.Error.
Implicit Types (st : State) (sessionId : string).

(** Stop on an identifier without an ongoing entry. *)
Lemma stopStream_absent st sessionId :
  ongoingSessions st !! sessionId = None →
  stopStream stopOutcome sessionId st =
  ({| pendingSessions := pendingSessions st;
      ongoingSessions := ongoingSessions st;
      trace := trace st ++ [Log Info "Stopped video stream."] |}, inr tt).
Proof.
  intros Hnone. unfold stopStream. step_monad. rewrite Hnone. cbn.
  by rewrite (delete_id _ _ Hnone).
Qed.

(** Stop on an ongoing session whose supervisor stops normally. *)
Lemma stopStream_returns st sessionId p :
  ongoingSessions st !! sessionId = Some p →
  stopOutcome p = None →
  stopStream stopOutcome sessionId st =
  ({| pendingSessions := pendingSessions st;
      ongoingSessions := delete sessionId (ongoingSessions st);
      trace := (trace st ++ [ProcessStop p]) ++ [Log Info "Stopped video stream."] |},
   inr tt).
Proof.
  intros Hsome Hok. unfold stopStream, processStop. step_monad.
  rewrite Hsome. cbn. by rewrite Hok.
Qed.

(** Stop on an ongoing session whose supervisor throws: the error is
    logged and the entry stays. *)
Lemma stopStream_throws st sessionId p err :
  ongoingSessions st !! sessionId = Some p →
  stopOutcome p = Some err →
  stopStream stopOutcome sessionId st =
  ({| pendingSessions := pendingSessions st;
      ongoingSessions := ongoingSessions st;
      trace := (trace st ++ [ProcessStop p]) ++
               [Log Err ("Error occurred terminating video process: " +:+
                         Js.toString err)] |},
   inr tt).
Proof.
  intros Hsome Herr. unfold stopStream, processStop. step_monad.
  rewrite Hsome. cbn. by rewrite Herr.
Qed.

(** No error leaves [stopStream]. *)
Lemma stopStream_never_throws st sessionId :
  outcome (stopStream stopOutcome sessionId) st = inr tt.
Proof.
  unfold outcome.
  destruct (ongoingSessions st !! sessionId) as [p|] eqn:E.
  - destruct (stopOutcome p) as [err|] eqn:Es.
    + by rewrite (stopStream_throws _ _ _ _ E Es).
    + by rewrite (stopStream_returns _ _ _ E Es).
  - by rewrite (stopStream_absent _ _ E).
Qed.

Lemma stopStream_keeps_pending st sessionId :
  pendingSessions (run (stopStream stopOutcome sessionId) st) = pendingSessions st.
Proof.
  unfold run.
  destruct (ongoingSessions st !! sessionId) as [p|] eqn:E.
  - destruct (stopOutcome p) as [err|] eqn:Es.
    + by rewrite (stopStream_throws _ _ _ _ E Es).
    + by rewrite (stopStream_returns _ _ _ E Es).
  - by rewrite (stopStream_absent _ _ E).
Qed.

End StopFacts.

Lemma terminations_snoc (tr : list Effect) (e : Effect) :
  terminations (tr ++ [e]) =
  terminations tr ++ match e with ProcessStop p => [p] | _ => [] end.
Proof. unfold terminations. rewrite omap_app. by destruct e. Qed.

Lemma streamCallbacks_snoc (tr : list Effect) (e : Effect) :
  streamCallbacks (tr ++ [e]) =
  streamCallbacks tr ++ match e with StreamCallback s => [s] | _ => [] end.
Proof. unfold streamCallbacks. rewrite omap_app. by destruct e. Qed.

Section StartFacts.

Variable this : StreamingDelegate.
Implicit Types (st : State) (request : StartStreamRequest).

(** A start request whose identifier is in the pending table. *)
Lemma startStream_pending st request sessionInfo :
  pendingSessions st !! startSessionID request = Some sessionInfo →
  outcome (startStream this request) st = inr tt ∧
  pendingSessions (run (startStream this request) st) =
    delete (startSessionID request) (pendingSessions st) ∧
  ongoingSessions (run (startStream this request) st) =
    <[startSessionID request := newFfmpegProcess this request sessionInfo]>
      (ongoingSessions st).
Proof.
  intros Hsome. unfold startStream. step_monad. by rewrite Hsome.
Qed.

(** A start request whose identifier is not in the pending table: the
    read of [sessionInfo.videoSSRC] throws, after the two log lines. *)
Lemma startStream_missing st request :
  pendingSessions st !! startSessionID request = None →
  outcome (startStream this request) st =
    inl (Js.TypeError "Cannot read property 'videoSSRC' of undefined") ∧
  pendingSessions (run (startStream this request) st) = pendingSessions st ∧
  ongoingSessions (run (startStream this request) st) = ongoingSessions st ∧
  streamCallbacks (trace (run (startStream this request) st)) =
    streamCallbacks (trace st).
Proof.
  intros Hnone. unfold startStream. step_monad. rewrite Hnone. cbn.
  rewrite !streamCallbacks_snoc. cbn. by rewrite !app_nil_r.
Qed.

End StartFacts.

Section PrepareFacts.

Variable this : StreamingDelegate.
Implicit Types (st : State) (request : PrepareStreamRequest) (env : PrepareEnv).

(** A setup request that completes has written the pending entry and
    nothing else in the tables. *)
Lemma prepareStream_completed st env request :
  outcome (prepareStream this env request) st = inr tt →
  pendingSessions (run (prepareStream this env request) st) =
    <[prepSessionID request := prepareSessionInfo env request]> (pendingSessions st) ∧
  ongoingSessions (run (prepareStream this env request) st) = ongoingSessions st.
Proof.
  unfold prepareStream, currentAddress. step_monad.
  destruct (getIpAddress (envOs env) (addressVersion request) (interfaceName this))
    as [ex | addr]; cbn; [| done].
  destruct (Js.truthyStr (interfaceName this)); cbn; [| done].
  destruct (getIpAddress (envOs env) (addressVersion request) None); cbn; done.
Qed.

(** A setup request that fails leaves both tables as they were. *)
Lemma prepareStream_failed st env request ex :
  outcome (prepareStream this env request) st = inl ex →
  pendingSessions (run (prepareStream this env request) st) = pendingSessions st ∧
  ongoingSessions (run (prepareStream this env request) st) = ongoingSessions st.
Proof.
  unfold prepareStream, currentAddress. step_monad.
  destruct (getIpAddress (envOs env) (addressVersion request) (interfaceName this))
    as [ex' | addr]; cbn; [| done].
  destruct (Js.truthyStr (interfaceName this)); cbn; [| done].
  destruct (getIpAddress (envOs env) (addressVersion request) None); cbn; done.
Qed.

End PrepareFacts.

(** C8. Stop never raises an error, whatever the supervisor's [stop()]
    does. On an identifier without an ongoing entry it invokes no
    supervisor termination and leaves the ongoing table as it is. Called
    twice in a row on an identifier whose supervisor's [stop()] returns,
    it invokes the termination at most once and the second call changes
    nothing in the ongoing table. *)
Theorem stop_is_idempotent (stopOutcome : FfmpegProcess → option Js.Error)
    (sessionId : string) (st : State) :
  let st1 := run (stopStream stopOutcome sessionId) st in
  let st2 := run (stopStream stopOutcome sessionId) st1 in
  outcome (stopStream stopOutcome sessionId) st = inr tt ∧
  outcome (stopStream stopOutcome sessionId) st1 = inr tt ∧
  (ongoingSessions st !! sessionId = None →
   ongoingSessions st1 = ongoingSessions st ∧
   terminations (trace st1) = terminations (trace st)) ∧
  ((∀ p, ongoingSessions st !! sessionId = Some p → stopOutcome p = None) →
   ongoingSessions st2 = ongoingSessions st1 ∧
   terminations (trace st2) = terminations (trace st1) ∧
   ∃ stopped, terminations (trace st2) = terminations (trace st) ++ stopped ∧
              (length stopped ≤ 1)%nat).
Proof.
  cbn zeta.
  assert (Hidle : ∀ s, ongoingSessions s !! sessionId = None →
            ongoingSessions (run (stopStream stopOutcome sessionId) s) = ongoingSessions s ∧
            terminations (trace (run (stopStream stopOutcome sessionId) s)) =
              terminations (trace s)).
  { intros s Hs. unfold run. rewrite (stopStream_absent _ _ _ Hs). cbn.
    by rewrite terminations_snoc, app_nil_r. }
  refine (conj _ (conj _ (conj (Hidle st) _))).
  - apply stopStream_never_throws.
  - apply stopStream_never_throws.
  - intros Hstop.
    assert (Hgone : ongoingSessions (run (stopStream stopOutcome sessionId) st)
                      !! sessionId = None).
    { destruct (ongoingSessions st !! sessionId) as [p|] eqn:E.
      - unfold run. rewrite (stopStream_returns _ _ _ _ E (Hstop p eq_refl)). cbn.
        apply lookup_delete_eq.
      - by rewrite (proj1 (Hidle st E)). }
    destruct (Hidle _ Hgone) as [Htable Hterm].
    refine (conj Htable (conj Hterm _)).
    rewrite Hterm. destruct (ongoingSessions st !! sessionId) as [p|] eqn:E.
    + exists [p]. split; [| done]. unfold run.
      rewrite (stopStream_returns _ _ _ _ E (Hstop p eq_refl)). cbn.
      by rewrite !terminations_snoc, app_nil_r.
    + exists []. split; [| cbn; lia]. by rewrite (proj2 (Hidle st E)), app_nil_r.
Qed.

Lemma stop_is_idempotent_witness :
  (let st1 := run (stopStream Sample.stopReturns "S1") Sample.ongoingState in
   let st2 := run (stopStream Sample.stopReturns "S1") st1 in
   outcome (stopStream Sample.stopReturns "S1") Sample.ongoingState = inr tt ∧
   outcome (stopStream Sample.stopReturns "S1") st1 = inr tt ∧
   ongoingSessions st2 = ongoingSessions st1 ∧
   terminations (trace st2) = terminations (trace st1) ∧
   ∃ stopped, terminations (trace st2) =
              terminations (trace Sample.ongoingState) ++ stopped ∧
              (length stopped ≤ 1)%nat) ∧
  (let st1 := run (stopStream Sample.stopThrows "S1") Sample.ongoingState in
   outcome (stopStream Sample.stopThrows "S1") Sample.ongoingState = inr tt ∧
   outcome (stopStream Sample.stopThrows "S1") st1 = inr tt) ∧
  (let st1 := run (stopStream Sample.stopThrows "S1") Sample.pendingState in
   ongoingSessions st1 = ongoingSessions Sample.pendingState ∧
   terminations (trace st1) = terminations (trace Sample.pendingState)).
Proof.
  pose proof (stop_is_idempotent Sample.stopReturns "S1" Sample.ongoingState)
    as (Hok1 & Hok2 & _ & Htwice).
  pose proof (stop_is_idempotent Sample.stopThrows "S1" Sample.ongoingState)
    as (Hthrow1 & Hthrow2 & _ & _).
  pose proof (stop_is_idempotent Sample.stopThrows "S1" Sample.pendingState)
    as (_ & _ & Hnever & _).
  cbn zeta in *.
  refine (conj (conj Hok1 (conj Hok2 _)) (conj (conj Hthrow1 Hthrow2) _)).
  - apply Htwice. intros p _. reflexivity.
  - apply Hnever. reflexivity.
Defined.

(** Against C8 as stated: when the supervisor's [stop()] throws, the entry
    stays in the ongoing table, and a second stop invokes the termination
    a second time. *)
Lemma stop_twice_terminates_twice :
  let st1 := run (stopStream Sample.stopThrows "S1") Sample.ongoingState in
  let st2 := run (stopStream Sample.stopThrows "S1") st1 in
  ongoingSessions st1 !! "S1" = Some Sample.process ∧
  terminations (trace st2) = [Sample.process; Sample.process] ∧
  ¬ (length (terminations (trace st2)) ≤ 1)%nat.
Proof.
  cbn zeta. refine (conj _ (conj _ _)).
  - reflexivity.
  - reflexivity.
  - intros Hle. vm_compute in Hle. lia.
Qed.

(** C1. For an identifier that is not streaming already: after a setup
    request that completed, the pending table holds exactly one entry for
    it and the ongoing table none; after the start request that follows,
    the ongoing table holds exactly one entry and the pending table none;
    after the stop request that follows, with the supervisor's [stop()]
    returning, neither table holds an entry. Stop removes entries from the
    ongoing table only: on a session that was set up but never started it
    leaves the pending entry in place. *)
Theorem session_table_lifecycle (stopOutcome : FfmpegProcess → option Js.Error)
    (this : StreamingDelegate) (env : PrepareEnv)
    (setup : PrepareStreamRequest) (start : StartStreamRequest) (st : State) :
  let sessionId := prepSessionID setup in
  let afterSetup := run (prepareStream this env setup) st in
  let afterStart := run (startStream this start) afterSetup in
  let afterStop := run (stopStream stopOutcome sessionId) afterStart in
  let stoppedEarly := run (stopStream stopOutcome sessionId) afterSetup in
  startSessionID start = sessionId →
  ongoingSessions st !! sessionId = None →
  outcome (prepareStream this env setup) st = inr tt →
  stopOutcome (newFfmpegProcess this start (prepareSessionInfo env setup)) = None →
  (entries (pendingSessions afterSetup) sessionId = 1%nat ∧
   entries (ongoingSessions afterSetup) sessionId = 0%nat) ∧
  (outcome (startStream this start) afterSetup = inr tt ∧
   entries (ongoingSessions afterStart) sessionId = 1%nat ∧
   entries (pendingSessions afterStart) sessionId = 0%nat) ∧
  (outcome (stopStream stopOutcome sessionId) afterStart = inr tt ∧
   entries (pendingSessions afterStop) sessionId = 0%nat ∧
   entries (ongoingSessions afterStop) sessionId = 0%nat) ∧
  (outcome (stopStream stopOutcome sessionId) afterSetup = inr tt ∧
   entries (pendingSessions stoppedEarly) sessionId = 1%nat ∧
   entries (ongoingSessions stoppedEarly) sessionId = 0%nat).
Proof.
  cbn zeta. intros Hid Hfresh Hsetup Hstop.
  destruct (prepareStream_completed this st env setup Hsetup) as [Hp1 Ho1].
  assert (Hpending : pendingSessions (run (prepareStream this env setup) st)
                       !! startSessionID start = Some (prepareSessionInfo env setup)).
  { rewrite Hid, Hp1. apply lookup_insert_eq. }
  destruct (startStream_pending this _ start _ Hpending) as (Hok2 & Hp2 & Ho2).
  rewrite Hid in Hp2, Ho2.
  assert (Hongoing : ongoingSessions
                       (run (startStream this start) (run (prepareStream this env setup) st))
                       !! prepSessionID setup
                     = Some (newFfmpegProcess this start (prepareSessionInfo env setup))).
  { rewrite Ho2. apply lookup_insert_eq. }
  assert (Hidle : ongoingSessions (run (prepareStream this env setup) st)
                    !! prepSessionID setup = None) by by rewrite Ho1.
  refine (conj (conj _ _) (conj (conj Hok2 (conj _ _)) (conj (conj _ (conj _ _))
            (conj _ (conj _ _))))).
  - eapply entries_present. rewrite Hp1. apply lookup_insert_eq.
  - by apply entries_absent.
  - by eapply entries_present.
  - apply entries_absent. rewrite Hp2. apply lookup_delete_eq.
  - apply stopStream_never_throws.
  - apply entries_absent. rewrite stopStream_keeps_pending, Hp2. apply lookup_delete_eq.
  - apply entries_absent. unfold run at 1.
    rewrite (stopStream_returns stopOutcome _ _ _ Hongoing Hstop). cbn.
    apply lookup_delete_eq.
  - apply stopStream_never_throws.
  - eapply entries_present. rewrite stopStream_keeps_pending, Hp1. apply lookup_insert_eq.
  - apply entries_absent. unfold run at 1.
    by rewrite (stopStream_absent stopOutcome _ _ Hidle).
Qed.

Lemma session_table_lifecycle_witness :
  let afterSetup := run (prepareStream Sample.camera Sample.env Sample.setup) initialState in
  let afterStart := run (startStream Sample.camera Sample.start) afterSetup in
  let afterStop := run (stopStream Sample.stopReturns "S1") afterStart in
  let stoppedEarly := run (stopStream Sample.stopReturns "S1") afterSetup in
  (entries (pendingSessions afterSetup) "S1" = 1%nat ∧
   entries (ongoingSessions afterSetup) "S1" = 0%nat) ∧
  (outcome (startStream Sample.camera Sample.start) afterSetup = inr tt ∧
   entries (ongoingSessions afterStart) "S1" = 1%nat ∧
   entries (pendingSessions afterStart) "S1" = 0%nat) ∧
  (outcome (stopStream Sample.stopReturns "S1") afterStart = inr tt ∧
   entries (pendingSessions afterStop) "S1" = 0%nat ∧
   entries (ongoingSessions afterStop) "S1" = 0%nat) ∧
  (outcome (stopStream Sample.stopReturns "S1") afterSetup = inr tt ∧
   entries (pendingSessions stoppedEarly) "S1" = 1%nat ∧
   entries (ongoingSessions stoppedEarly) "S1" = 0%nat).
Proof.
  apply (session_table_lifecycle Sample.stopReturns Sample.camera Sample.env
           Sample.setup Sample.start initialState); reflexivity.
Defined.

(** Against C1 as stated: a stop on a session that was set up but never
    started leaves its pending entry, and a stop whose supervisor throws
    leaves the ongoing entry. *)
Lemma stop_leaves_entries :
  (let afterSetup := run (prepareStream Sample.camera Sample.env Sample.setup) initialState in
   let afterStop := run (stopStream Sample.stopReturns "S1") afterSetup in
   entries (pendingSessions afterStop) "S1" = 1%nat) ∧
  (let afterSetup := run (prepareStream Sample.camera Sample.env Sample.setup) initialState in
   let afterStart := run (startStream Sample.camera Sample.start) afterSetup in
   let afterStop := run (stopStream Sample.stopThrows "S1") afterStart in
   entries (ongoingSessions afterStop) "S1" = 1%nat).
Proof.
  split; cbn zeta.
  - apply entries_one. rewrite stopStream_keeps_pending. eexists. reflexivity.
  - apply entries_one. exists Sample.process.
    set (afterStart := run (startStream Sample.camera Sample.start) _).
    assert (H0 : ongoingSessions afterStart !! "S1" = Some Sample.process) by reflexivity.
    unfold run at 1.
    by rewrite (stopStream_throws Sample.stopThrows _ _ _ _ H0 eq_refl).
Qed.

(** C2. A start request whose identifier has no entry in the pending table
    makes [handleStreamRequest] throw a [TypeError]: the missing session
    info is dereferenced. Both tables stay as they were and the request's
    callback is not invoked. *)
Theorem start_without_pending_entry_throws
    (stopOutcome : FfmpegProcess → option Js.Error) (this : StreamingDelegate)
    (request : StartStreamRequest) (st : State) :
  pendingSessions st !! startSessionID request = None →
  let st' := run (handleStreamRequest stopOutcome this (START request)) st in
  outcome (handleStreamRequest stopOutcome this (START request)) st =
    inl (Js.TypeError "Cannot read property 'videoSSRC' of undefined") ∧
  pendingSessions st' = pendingSessions st ∧
  ongoingSessions st' = ongoingSessions st ∧
  streamCallbacks (trace st') = streamCallbacks (trace st).
Proof.
  intros Hnone. cbn zeta. cbn [handleStreamRequest].
  exact (startStream_missing this st request Hnone).
Qed.

Lemma start_without_pending_entry_throws_witness :
  let st' := run (handleStreamRequest Sample.stopReturns Sample.camera (START Sample.start))
               initialState in
  outcome (handleStreamRequest Sample.stopReturns Sample.camera (START Sample.start))
    initialState =
    inl (Js.TypeError "Cannot read property 'videoSSRC' of undefined") ∧
  pendingSessions st' = pendingSessions initialState ∧
  ongoingSessions st' = ongoingSessions initialState ∧
  streamCallbacks (trace st') = streamCallbacks (trace initialState).
Proof.
  apply (start_without_pending_entry_throws Sample.stopReturns Sample.camera
           Sample.start initialState).
  reflexivity.
Defined.

(** ** Still images *)

Lemma snapshotCallbacks_snoc (tr : list Effect) (e : Effect) :
  snapshotCallbacks (tr ++ [e]) =
  snapshotCallbacks tr ++
  match e with SnapshotCallback err img => [(err, img)] | _ => [] end.
Proof. unfold snapshotCallbacks. rewrite omap_app. by destruct e. Qed.

(** Once [spawn] has returned a process, every invocation of the snapshot
    callback is a success: each [close] event delivers the bytes read so
    far, and an [error] event is only logged. *)
Lemma snapshotHandlers_only_succeed (this : StreamingDelegate)
    (events : list ChildEvent) (imageBuffer : Buffer) (st : State) :
  outcome (snapshotHandlers this events imageBuffer) st = inr tt ∧
  ∃ calls,
    snapshotCallbacks (trace (run (snapshotHandlers this events imageBuffer) st)) =
      snapshotCallbacks (trace st) ++ calls ∧
    Forall (λ c, fst c = None ∧ is_Some (snd c)) calls.
Proof.
  revert imageBuffer st.
  induction events as [| ev events IH]; intros imageBuffer st.
  - split; [done |]. exists []. by rewrite app_nil_r.
  - destruct ev as [data | error | code]; cbn [snapshotHandlers].
    + apply IH.
    + unfold run, outcome, bind, log, emit, modify in *. cbn.
      match goal with |- context [snapshotHandlers _ _ _ ?s] =>
        destruct (IH imageBuffer s) as (Hok & calls & Hcalls & Hall) end.
      split; [exact Hok |]. exists calls. split; [| exact Hall].
      rewrite Hcalls. cbn. by rewrite snapshotCallbacks_snoc, app_nil_r.
    + unfold run, outcome, bind, log, emit, modify in *. cbn.
      match goal with |- context [snapshotHandlers _ _ _ ?s] =>
        destruct (IH imageBuffer s) as (Hok & calls & Hcalls & Hall) end.
      split; [exact Hok |]. exists ((None, Some imageBuffer) :: calls).
      split.
      * rewrite Hcalls. cbn. rewrite snapshotCallbacks_snoc. by rewrite <- app_assoc.
      * apply List.Forall_cons; [| exact Hall]. cbn. eauto.
Qed.

(** C3. A capture process that reports an error and exits abnormally
    without having written an image: the error is logged, and the
    snapshot callback is invoked once, with no error and an empty
    buffer. *)
Theorem snapshot_failure_is_reported_as_success (this : StreamingDelegate)
    (request : SnapshotRequest) (error : string) (code : Z) (st : State) :
  let failed := Spawned [ProcError error; ProcClose (Some code)] in
  outcome (handleSnapshotRequest this failed request) st = inr tt ∧
  snapshotCallbacks (trace (run (handleSnapshotRequest this failed request) st)) =
    snapshotCallbacks (trace st) ++ [(None, Some [])].
Proof.
  cbn zeta. unfold handleSnapshotRequest. step_monad. cbn.
  split; [done |].
  rewrite !snapshotCallbacks_snoc. cbn. by rewrite !app_nil_r.
Qed.

(** The same at any sequence of events: no failure of a spawned capture
    process reaches the callback as an error. *)
Lemma snapshot_callback_never_fails_after_spawn (this : StreamingDelegate)
    (request : SnapshotRequest) (events : list ChildEvent) (st : State) :
  ∃ calls,
    snapshotCallbacks (trace (run (handleSnapshotRequest this (Spawned events) request) st))
    = snapshotCallbacks (trace st) ++ calls ∧
    Forall (λ c, fst c = None ∧ is_Some (snd c)) calls.
Proof.
  unfold handleSnapshotRequest. step_monad. cbn.
  match goal with |- context [snapshotHandlers _ _ _ ?s] =>
    destruct (snapshotHandlers_only_succeed this events [] s)
      as (Hok & calls & Hcalls & Hall) end.
  unfold run, outcome in *.
  match goal with |- context [snapshotHandlers _ _ _ ?s] =>
    destruct (snapshotHandlers this events [] s) as [s' [e | []]] end;
    cbn in *; [discriminate |].
  exists calls. split; [| exact Hall]. rewrite Hcalls.
  by rewrite !snapshotCallbacks_snoc, !app_nil_r.
Qed.

(** Only an exception thrown by [spawn] itself reaches the callback. *)
Lemma snapshot_spawn_exception_is_surfaced (this : StreamingDelegate)
    (request : SnapshotRequest) (err : Js.Error) (st : State) :
  snapshotCallbacks (trace (run (handleSnapshotRequest this (SpawnThrows err) request) st))
  = snapshotCallbacks (trace st) ++ [(Some err, None)].
Proof.
  unfold handleSnapshotRequest. step_monad. cbn.
  rewrite !snapshotCallbacks_snoc. cbn. by rewrite !app_nil_r.
Qed.

(** ** Address resolution *)

Lemma Family_eqb_eq (a b : Family) : Family_eqb a b = true ↔ a = b.
Proof. destruct a, b; cbn; split; congruence. Qed.

Lemma Family_eqb_neq (a b : Family) : Family_eqb a b = false ↔ a ≠ b.
Proof. destruct a, b; cbn; split; congruence. Qed.

Lemma find_first {A} (f : A → bool) (pre : list A) (x : A) (post : list A) :
  Forall (λ y, f y = false) pre → f x = true →
  List.find f (pre ++ x :: post) = Some x.
Proof.
  intros Hpre Hx. induction Hpre as [| y pre Hy _ IH]; cbn.
  - by rewrite Hx.
  - by rewrite Hy.
Qed.

Lemma find_none {A} (f : A → bool) (l : list A) :
  Forall (λ y, f y = false) l → List.find f l = None.
Proof.
  intros Hl. induction Hl as [| y l Hy _ IH]; cbn; [done |]. by rewrite Hy.
Qed.

Lemma other_family (fam : Family) (l : list NetworkInterfaceInfo) :
  Forall (λ i, family i ≠ fam) l →
  Forall (λ i, Family_eqb (family i) fam = false) l.
Proof.
  intros H. eapply Forall_impl; [exact H |]. intros i. apply Family_eqb_neq.
Qed.

Lemma truthyStr_named (n : string) : n ≠ EmptyString → Js.truthyStr (Some n) = true.
Proof. intros Hn. cbn. apply String.eqb_neq in Hn. by rewrite Hn. Qed.

Section ResolverFacts.

Variables (os : Os) (ver : AddressVersion).

(** Without an interface name the default outbound interface is used. *)
Lemma getIpAddress_default (iface : option string) :
  Js.truthyStr iface = false →
  getIpAddress os ver iface = getIpAddress os ver (Some (networkInterfaceDefault os)).
Proof.
  intros Hfalsy. unfold getIpAddress. rewrite Hfalsy. cbn [negb].
  destruct (Js.truthyStr (Some (networkInterfaceDefault os))) eqn:E; cbn [negb]; [done |].
  cbn in E. apply negb_false_iff, String.eqb_eq in E. by rewrite E.
Qed.

(** The first non-internal address of the requested family wins. *)
Lemma getIpAddress_preferred (n : string) (infos pre post : list NetworkInterfaceInfo)
    (info : NetworkInterfaceInfo) :
  n ≠ EmptyString →
  networkInterfaces os !! n = Some infos →
  List.filter (λ i, negb (internal i)) infos = pre ++ info :: post →
  Forall (λ i, family i ≠ preferredFamily ver) pre →
  family info = preferredFamily ver →
  getIpAddress os ver (Some n) = inr (ifAddress info).
Proof.
  intros Hn Hinfos Hext Hpre Hfam. unfold getIpAddress, externalInfo.
  rewrite (truthyStr_named n Hn). cbn. rewrite Hinfos. cbn.
  rewrite Hext. cbn [addressInfo].
  rewrite (find_first _ pre info post); [done | by apply other_family |].
  by apply Family_eqb_eq.
Qed.

(** Without an address of the requested family, the first non-internal
    address of the interface is taken. *)
Lemma getIpAddress_fallback (n : string) (infos rest : list NetworkInterfaceInfo)
    (info : NetworkInterfaceInfo) :
  n ≠ EmptyString →
  networkInterfaces os !! n = Some infos →
  List.filter (λ i, negb (internal i)) infos = info :: rest →
  Forall (λ i, family i ≠ preferredFamily ver) (info :: rest) →
  getIpAddress os ver (Some n) = inr (ifAddress info).
Proof.
  intros Hn Hinfos Hext Hall. unfold getIpAddress, externalInfo.
  rewrite (truthyStr_named n Hn). cbn. rewrite Hinfos. cbn.
  rewrite Hext. cbn [addressInfo].
  rewrite (find_none _ (info :: rest)); [done | by apply other_family].
Qed.

(** Without a non-internal address, or without the interface, an error
    is raised. *)
Lemma getIpAddress_fails (n : string) :
  n ≠ EmptyString →
  default [] (List.filter (λ i, negb (internal i)) <$> networkInterfaces os !! n) = [] →
  getIpAddress os ver (Some n) =
  inl (Js.PlainError
         ("Unable to get network address for " +:+ dquote +:+ n +:+ dquote +:+ "!")).
Proof.
  intros Hn Hext. unfold getIpAddress, externalInfo.
  rewrite (truthyStr_named n Hn). cbn.
  destruct (networkInterfaces os !! n) as [infos|]; cbn in *; [| done].
  by rewrite Hext.
Qed.

End ResolverFacts.

(** C9. Without an interface name the resolver uses the default outbound
    interface. On the interface it uses, the first non-internal address of
    the requested family (IPv4 for an [ipv4] request, IPv6 for an [ipv6]
    request) is returned; without one, the first non-internal address of
    any family; without any non-internal address an error is raised. In a
    setup request, when an interface is configured and the resolution on
    it fails, a warning is logged and the resolution is done once more on
    the default interface, whose result (address or error) is final; when
    no interface is configured the error leaves [prepareStream] and
    nothing else happens. *)
Theorem address_resolution_policy (this : StreamingDelegate) (env : PrepareEnv)
    (request : PrepareStreamRequest) (st : State) :
  let os := envOs env in
  let ver := addressVersion request in
  let fam := match ver with ipv6 => IPv6 | ipv4 => IPv4 end in
  (∀ iface, Js.truthyStr iface = false →
     getIpAddress os ver iface = getIpAddress os ver (Some (networkInterfaceDefault os))) ∧
  (∀ n infos, n ≠ EmptyString → networkInterfaces os !! n = Some infos →
     let external := List.filter (λ i, negb (internal i)) infos in
     (∀ pre info post,
        external = pre ++ info :: post →
        Forall (λ i, family i ≠ fam) pre → family info = fam →
        getIpAddress os ver (Some n) = inr (ifAddress info)) ∧
     (∀ info rest,
        external = info :: rest → Forall (λ i, family i ≠ fam) external →
        getIpAddress os ver (Some n) = inr (ifAddress info)) ∧
     (external = [] → ∃ ex, getIpAddress os ver (Some n) = inl ex)) ∧
  (∀ n, n ≠ EmptyString → networkInterfaces os !! n = None →
     ∃ ex, getIpAddress os ver (Some n) = inl ex) ∧
  (∀ ex, Js.truthyStr (interfaceName this) = true →
     getIpAddress os ver (interfaceName this) = inl ex →
     warnings (trace (run (prepareStream this env request) st)) =
       warnings (trace st) ++ [Js.toString ex +:+ " Falling back to default."] ∧
     outcome (prepareStream this env request) st =
       match getIpAddress os ver None with
       | inl ex' => inl ex'
       | inr _ => inr tt
       end ∧
     (∀ addr, getIpAddress os ver None = inr addr →
        trace (run (prepareStream this env request) st) =
          trace st ++ [Log Warn (Js.toString ex +:+ " Falling back to default.");
                       PrepareCallback (prepSessionID request)
                         (prepareResponse env request addr)])) ∧
  (∀ ex, Js.truthyStr (interfaceName this) = false →
     getIpAddress os ver (interfaceName this) = inl ex →
     prepareStream this env request st = (st, inl ex)).
Proof.
  cbn zeta.
  refine (conj _ (conj _ (conj _ (conj _ _)))).
  - intros iface. apply getIpAddress_default.
  - intros n infos Hn Hinfos. cbn zeta. refine (conj _ (conj _ _)).
    + intros pre info post Hext Hpre Hfam.
      exact (getIpAddress_preferred _ _ n infos pre post info Hn Hinfos Hext Hpre Hfam).
    + intros info rest Hext Hall. rewrite Hext in Hall.
      exact (getIpAddress_fallback _ _ n infos rest info Hn Hinfos Hext Hall).
    + intros Hext. eexists. apply getIpAddress_fails; [done |]. by rewrite Hinfos.
  - intros n Hn Hnone. eexists. apply getIpAddress_fails; [done |]. by rewrite Hnone.
  - intros ex Hpref Hfail. unfold prepareStream, currentAddress. step_monad.
    rewrite Hfail, Hpref. cbn.
    destruct (getIpAddress (envOs env) (addressVersion request) None) as [ex' | addr];
      cbn.
    + unfold warnings. rewrite omap_app. cbn. split; [done |]. split; [done |].
      intros addr [=].
    + unfold warnings. rewrite !omap_app. cbn. rewrite app_nil_r.
      split; [done |]. split; [done |].
      intros addr' [= <-]. by rewrite <- app_assoc.
  - intros ex Hnopref Hfail. unfold prepareStream, currentAddress. step_monad.
    by rewrite Hfail, Hnopref.
Qed.

Lemma address_resolution_policy_witness :
  getIpAddress Sample.os ipv4 None = inr "192.168.1.10" ∧
  getIpAddress Sample.os ipv6 (Some "eth0") = inr "fe80::1c2d" ∧
  getIpAddress (envOs Sample.tunnelEnv) ipv4 None = inr "fd00::7" ∧
  (∃ ex, getIpAddress Sample.os ipv4 (Some "lo") = inl ex) ∧
  (∃ ex, getIpAddress Sample.os ipv4 (Some "wlan0") = inl ex) ∧
  outcome (prepareStream (Sample.cameraOn "wlan0") Sample.env Sample.setup) initialState
  = inr tt ∧
  warnings (trace (run (prepareStream (Sample.cameraOn "wlan0") Sample.env Sample.setup)
                     initialState)) =
  [Js.toString
     (Js.PlainError ("Unable to get network address for " +:+ dquote +:+ "wlan0" +:+
                     dquote +:+ "!")) +:+ " Falling back to default."] ∧
  prepareStream Sample.camera Sample.offlineEnv Sample.setup initialState =
  (initialState,
   inl (Js.PlainError ("Unable to get network address for " +:+ dquote +:+ "eth0" +:+
                       dquote +:+ "!"))).
Proof.
  pose proof (address_resolution_policy (Sample.cameraOn "wlan0") Sample.env Sample.setup
                initialState) as (Hdefault & Hnamed & Hmissing & Hretry & _).
  pose proof (address_resolution_policy Sample.camera Sample.env Sample.setup6
                initialState) as (_ & Hnamed6 & _).
  pose proof (address_resolution_policy Sample.camera Sample.tunnelEnv Sample.setup
                initialState) as (Hdefault4 & Hnamed4 & _).
  pose proof (address_resolution_policy Sample.camera Sample.offlineEnv Sample.setup
                initialState) as (_ & _ & _ & _ & Hpropagates).
  cbn zeta in *.
  refine (conj _ (conj _ (conj _ (conj _ (conj _ (conj _ (conj _ _))))))).
  - transitivity (getIpAddress Sample.os ipv4 (Some "eth0"));
      [exact (Hdefault None eq_refl) |].
    destruct (Hnamed "eth0" Sample.eth0) as (Hpreferred & _ & _);
      [discriminate | reflexivity |].
    apply (Hpreferred
             [{| ifAddress := "fe80::1c2d"; family := IPv6; internal := false |}]
             {| ifAddress := "192.168.1.10"; family := IPv4; internal := false |} []).
    + reflexivity.
    + apply List.Forall_cons; [discriminate | apply List.Forall_nil].
    + reflexivity.
  - destruct (Hnamed6 "eth0" Sample.eth0) as (Hpreferred & _ & _);
      [discriminate | reflexivity |].
    apply (Hpreferred []
             {| ifAddress := "fe80::1c2d"; family := IPv6; internal := false |}
             [{| ifAddress := "192.168.1.10"; family := IPv4; internal := false |}]).
    + reflexivity.
    + apply List.Forall_nil.
    + reflexivity.
  - transitivity (getIpAddress (envOs Sample.tunnelEnv) ipv4 (Some "tun0"));
      [exact (Hdefault4 None eq_refl) |].
    destruct (Hnamed4 "tun0" Sample.tun0) as (_ & Hfallback & _);
      [discriminate | reflexivity |].
    apply (Hfallback {| ifAddress := "fd00::7"; family := IPv6; internal := false |} []).
    + reflexivity.
    + apply List.Forall_cons; [discriminate | apply List.Forall_nil].
  - destruct (Hnamed "lo" Sample.lo) as (_ & _ & Hnone);
      [discriminate | reflexivity |].
    apply Hnone. reflexivity.
  - apply (Hmissing "wlan0"); [discriminate | reflexivity].
  - destruct (Hretry _ eq_refl eq_refl) as (_ & Hout & _). exact Hout.
  - destruct (Hretry _ eq_refl eq_refl) as (Hwarn & _ & _). exact Hwarn.
  - apply Hpropagates; reflexivity.
Defined.

(** ** Command lines *)

Lemma endsWith_refl (s : string) : endsWith s s.
Proof. by exists EmptyString. Qed.

Lemma append_assoc (a b c : string) : (a +:+ b) +:+ c = a +:+ b +:+ c.
Proof.
  induction a as [| ch a IH]; [reflexivity |].
  change (String ch ((a +:+ b) +:+ c) = String ch (a +:+ b +:+ c)). by rewrite IH.
Qed.

Lemma endsWith_append (a b text : string) : endsWith b text → endsWith (a +:+ b) text.
Proof. intros [before ->]. exists (a +:+ before). by rewrite append_assoc. Qed.

Ltac ends_with := repeat first [apply endsWith_refl | apply endsWith_append].

(** C10. The video arguments close with the capped video bitrate as
    [-b:v] and [-maxrate] and twice that bitrate as [-bufsize], each with
    the suffix [k]; the video destination is [srtp://address:port] with
    [rtcpport] and [localrtcpport] both the remote video port and
    [pkt_size] the configured packet size, 1316 when none is configured.
    The audio arguments use the capped audio bitrate for [-b:a] and
    [-bufsize] and force [-ac 1]; the audio destination has [pkt_size=188].
    The audio segments are part of the command exactly when audio is
    enabled. *)
Theorem command_line_constants (this : StreamingDelegate)
    (request : StartStreamRequest) (sessionInfo : SessionInfo) :
  let cfg := videoConfig this in
  let vb := videoBitrate cfg (videoMaxBitRate (video request)) in
  let ab := audioBitrate cfg (audioMaxBitRate (audioReq request)) in
  let loglevel := if debug cfg then " -loglevel level+verbose" else EmptyString in
  endsWith (ffmpegVideoArgs this request)
    (" -b:v " +:+ pretty vb +:+ "k" +:+
     " -bufsize " +:+ pretty (2 * vb) +:+ "k" +:+
     " -maxrate " +:+ pretty vb +:+ "k" +:+
     " -payload_type " +:+ pretty (videoPt (video request))) ∧
  endsWith (ffmpegVideoStream this sessionInfo)
    (" srtp://" +:+ address sessionInfo +:+ ":" +:+ pretty (videoPort sessionInfo) +:+
     "?rtcpport=" +:+ pretty (videoPort sessionInfo) +:+
     "&localrtcpport=" +:+ pretty (videoPort sessionInfo) +:+
     "&pkt_size=" +:+ pretty (mtu cfg)) ∧
  (∀ n, packetSize cfg = Some n → n ≠ 0 → mtu cfg = n) ∧
  (packetSize cfg = None → mtu cfg = 1316) ∧
  endsWith (ffmpegAudioArgs this request)
    (" -b:a " +:+ pretty ab +:+ "k" +:+
     " -bufsize " +:+ pretty ab +:+ "k" +:+
     " -ac 1" +:+
     " -payload_type " +:+ pretty (audioPt (audioReq request))) ∧
  endsWith (ffmpegAudioStream sessionInfo)
    (" srtp://" +:+ address sessionInfo +:+ ":" +:+ pretty (audioPort sessionInfo) +:+
     "?rtcpport=" +:+ pretty (audioPort sessionInfo) +:+
     "&localrtcpport=" +:+ pretty (audioPort sessionInfo) +:+
     "&pkt_size=188") ∧
  (audio cfg = true →
   fcmd this request sessionInfo =
   source cfg +:+ ffmpegVideoArgs this request +:+ ffmpegVideoStream this sessionInfo +:+
   ffmpegAudioArgs this request +:+ ffmpegAudioStream sessionInfo +:+ loglevel) ∧
  (audio cfg = false →
   fcmd this request sessionInfo =
   source cfg +:+ ffmpegVideoArgs this request +:+ ffmpegVideoStream this sessionInfo +:+
   loglevel).
Proof.
  cbn zeta.
  refine (conj _ (conj _ (conj _ (conj _ (conj _ (conj _ (conj _ _))))))).
  - unfold ffmpegVideoArgs. ends_with.
  - unfold ffmpegVideoStream. ends_with.
  - intros n Hn Hne. unfold mtu, Js.orNum. rewrite Hn.
    destruct (Z.eqb_spec n 0); [done | done].
  - intros Hn. unfold mtu. by rewrite Hn.
  - unfold ffmpegAudioArgs. ends_with.
  - unfold ffmpegAudioStream. ends_with.
  - intros Haudio. unfold fcmd. rewrite Haudio. by rewrite append_assoc.
  - intros Haudio. unfold fcmd. by rewrite Haudio.
Qed.

Lemma command_line_constants_witness :
  mtu Sample.config = 1316 ∧
  endsWith (ffmpegVideoArgs Sample.camera Sample.start)
    " -b:v 2000k -bufsize 4000k -maxrate 2000k -payload_type 99" ∧
  endsWith (ffmpegVideoStream Sample.camera Sample.session)
    " srtp://192.168.1.50:50000?rtcpport=50000&localrtcpport=50000&pkt_size=1316" ∧
  endsWith (ffmpegAudioArgs Sample.camera Sample.start)
    " -b:a 24k -bufsize 24k -ac 1 -payload_type 110" ∧
  endsWith (ffmpegAudioStream Sample.session)
    " srtp://192.168.1.50:50002?rtcpport=50002&localrtcpport=50002&pkt_size=188" ∧
  fcmd Sample.camera Sample.start Sample.session =
  "-rtsp_transport tcp -i rtsp://192.168.1.20/live" +:+
  " -map 0:0 -vcodec libx264 -pix_fmt yuv420p -r 30 -f rawvideo" +:+
  " -preset ultrafast -tune zerolatency -vf scale=1280:720" +:+
  " -b:v 2000k -bufsize 4000k -maxrate 2000k -payload_type 99" +:+
  " -ssrc 1111 -f rtp -srtp_out_suite AES_CM_128_HMAC_SHA1_80" +:+
  " -srtp_out_params c3J0cA==" +:+
  " srtp://192.168.1.50:50000?rtcpport=50000&localrtcpport=50000&pkt_size=1316" +:+
  " -map 0:1 -acodec libfdk_aac -profile:a aac_eld -flags +global_header -f null" +:+
  " -ar 16k -b:a 24k -bufsize 24k -ac 1 -payload_type 110" +:+
  " -ssrc 2222 -f rtp -srtp_out_suite AES_CM_128_HMAC_SHA1_80" +:+
  " -srtp_out_params TWFu" +:+
  " srtp://192.168.1.50:50002?rtcpport=50002&localrtcpport=50002&pkt_size=188".
Proof.
  pose proof (command_line_constants Sample.camera Sample.start Sample.session)
    as (Hvideo & Hvdest & _ & Hmtu & Haudio & Hadest & Hcmd & _).
  refine (conj _ (conj _ (conj _ (conj _ (conj _ _))))).
  - apply Hmtu. reflexivity.
  - exact Hvideo.
  - exact Hvdest.
  - exact Haudio.
  - exact Hadest.
  - etransitivity; [apply Hcmd; reflexivity | reflexivity].
Defined.

(** * Further properties of the delegate *)

Lemma prepareCallbacks_snoc (tr : list Effect) (e : Effect) :
  prepareCallbacks (tr ++ [e]) =
  prepareCallbacks tr ++ match e with PrepareCallback s r => [(s, r)] | _ => [] end.
Proof. unfold prepareCallbacks. rewrite omap_app. by destruct e. Qed.

Lemma newProcesses_snoc (tr : list Effect) (e : Effect) :
  newProcesses (tr ++ [e]) =
  newProcesses tr ++ match e with NewFfmpegProcess p => [p] | _ => [] end.
Proof. unfold newProcesses. rewrite omap_app. by destruct e. Qed.

Ltac read_trace :=
  rewrite ?terminations_snoc, ?streamCallbacks_snoc, ?prepareCallbacks_snoc,
    ?newProcesses_snoc, ?snapshotCallbacks_snoc;
  cbn [app]; rewrite ?app_nil_r.

(** ** Sessions do not disturb each other *)

(** X1. A start request changes no entry of another session identifier,
    in the pending table or in the ongoing table, whether it starts the
    stream or throws. *)
Theorem start_leaves_other_sessions (this : StreamingDelegate)
    (request : StartStreamRequest) (st : State) (other : string) :
  other ≠ startSessionID request →
  pendingSessions (run (startStream this request) st) !! other =
    pendingSessions st !! other ∧
  ongoingSessions (run (startStream this request) st) !! other =
    ongoingSessions st !! other.
Proof.
  intros Hother.
  destruct (pendingSessions st !! startSessionID request) as [info|] eqn:E.
  - destruct (startStream_pending this st request info E) as (_ & -> & ->).
    by rewrite lookup_delete_ne, lookup_insert_ne.
  - by destruct (startStream_missing this st request E) as (_ & -> & -> & _).
Qed.

Lemma start_leaves_other_sessions_witness :
  pendingSessions (run (startStream Sample.camera Sample.otherStart) Sample.busyState)
    !! "S3" = Some Sample.session ∧
  ongoingSessions (run (startStream Sample.camera Sample.otherStart) Sample.busyState)
    !! "S1" = Some Sample.process.
Proof.
  split.
  - etransitivity;
      [exact (proj1 (start_leaves_other_sessions Sample.camera Sample.otherStart
                       Sample.busyState "S3" ltac:(discriminate))) | reflexivity].
  - etransitivity;
      [exact (proj2 (start_leaves_other_sessions Sample.camera Sample.otherStart
                       Sample.busyState "S1" ltac:(discriminate))) | reflexivity].
Defined.

(** X2. A stop request leaves the pending table as it is and changes no
    ongoing entry of another identifier; of its own ongoing entry it
    leaves nothing when the supervisor's [stop()] returns, and the entry
    itself when [stop()] throws. *)
Theorem stop_touches_only_its_ongoing_entry
    (stopOutcome : FfmpegProcess → option Js.Error) (sessionId : string) (st : State) :
  let st' := run (stopStream stopOutcome sessionId) st in
  pendingSessions st' = pendingSessions st ∧
  ongoingSessions st' !! sessionId = leftByStop stopOutcome (ongoingSessions st !! sessionId) ∧
  (∀ other, other ≠ sessionId →
     ongoingSessions st' !! other = ongoingSessions st !! other).
Proof.
  cbn zeta. split; [apply stopStream_keeps_pending |]. unfold run.
  destruct (ongoingSessions st !! sessionId) as [p|] eqn:E; cbn [leftByStop].
  - destruct (stopOutcome p) as [err|] eqn:Es.
    + rewrite (stopStream_throws _ _ _ _ _ E Es). cbn. by split.
    + rewrite (stopStream_returns _ _ _ _ E Es). cbn. split.
      * apply lookup_delete_eq.
      * intros other Hother. by rewrite lookup_delete_ne.
  - rewrite (stopStream_absent _ _ _ E). cbn. by split.
Qed.

Lemma stop_touches_only_its_ongoing_entry_witness :
  let st' := run (stopStream Sample.stopReturns "S1") Sample.busyState in
  pendingSessions st' !! "S3" = Some Sample.session ∧
  ongoingSessions st' !! "S1" = None ∧
  ongoingSessions st' !! "S2" = Some Sample.otherProcess.
Proof.
  pose proof (stop_touches_only_its_ongoing_entry Sample.stopReturns "S1" Sample.busyState)
    as (Hpending & Hown & Hothers).
  cbn zeta in *. refine (conj _ (conj _ _)).
  - rewrite Hpending. reflexivity.
  - rewrite Hown. reflexivity.
  - rewrite (Hothers "S2"); [reflexivity | discriminate].
Defined.

(** X3. A setup request never changes the ongoing table and changes no
    pending entry of another identifier. When it completes, the pending
    entry of its identifier is the session info built from this request,
    whatever entry was there before; when it fails, the pending table is
    unchanged. *)
Theorem setup_writes_only_its_pending_entry (this : StreamingDelegate)
    (env : PrepareEnv) (request : PrepareStreamRequest) (st : State) :
  let st' := run (prepareStream this env request) st in
  ongoingSessions st' = ongoingSessions st ∧
  (∀ other, other ≠ prepSessionID request →
     pendingSessions st' !! other = pendingSessions st !! other) ∧
  (outcome (prepareStream this env request) st = inr tt →
   pendingSessions st' !! prepSessionID request = Some (prepareSessionInfo env request)) ∧
  (∀ ex, outcome (prepareStream this env request) st = inl ex →
     pendingSessions st' = pendingSessions st).
Proof.
  cbn zeta.
  destruct (outcome (prepareStream this env request) st) as [ex | []] eqn:E.
  - destruct (prepareStream_failed this st env request ex E) as [Hp Ho].
    rewrite Hp, Ho. refine (conj eq_refl (conj _ (conj _ _))).
    + done.
    + intros [=].
    + done.
  - destruct (prepareStream_completed this st env request E) as [Hp Ho].
    rewrite Hp, Ho. refine (conj eq_refl (conj _ (conj _ _))).
    + intros other Hother. by rewrite lookup_insert_ne.
    + intros _. apply lookup_insert_eq.
    + intros ex [=].
Qed.

Lemma setup_writes_only_its_pending_entry_witness :
  let st' := run (prepareStream Sample.camera Sample.env Sample.setup) Sample.pendingState in
  ongoingSessions st' = ongoingSessions Sample.pendingState ∧
  pendingSessions st' !! "S1" = Some (prepareSessionInfo Sample.env Sample.setup) ∧
  pendingSessions
    (run (prepareStream Sample.camera Sample.offlineEnv Sample.setup) Sample.busyState)
  = pendingSessions Sample.busyState.
Proof.
  pose proof (setup_writes_only_its_pending_entry Sample.camera Sample.env Sample.setup
                Sample.pendingState) as (Hongoing & _ & Hown & _).
  pose proof (setup_writes_only_its_pending_entry Sample.camera Sample.offlineEnv
                Sample.setup Sample.busyState) as (_ & _ & _ & Hfailed).
  cbn zeta in *. refine (conj Hongoing (conj _ _)).
  - apply Hown. reflexivity.
  - eapply Hfailed. reflexivity.
Defined.

(** ** Callbacks *)

(** X4. A setup request invokes its callback exactly once when it
    completes, with the two return ports and synchronisation sources it
    stored in the session info and with the key and the salt of the
    request, each echoed as it came, and not at all when it fails. *)
Theorem setup_callback_exactly_when_completed (this : StreamingDelegate)
    (env : PrepareEnv) (request : PrepareStreamRequest) (st : State) :
  let st' := run (prepareStream this env request) st in
  let info := prepareSessionInfo env request in
  (outcome (prepareStream this env request) st = inr tt →
   ∃ response,
     prepareCallbacks (trace st') =
       prepareCallbacks (trace st) ++ [(prepSessionID request, response)] ∧
     respPort (respVideo response) = videoReturnPort info ∧
     respPort (respAudio response) = audioReturnPort info ∧
     respSsrc (respVideo response) = videoSSRC info ∧
     respSsrc (respAudio response) = audioSSRC info ∧
     respSrtpKey (respVideo response) = srtp_key (prepVideo request) ∧
     respSrtpSalt (respVideo response) = srtp_salt (prepVideo request) ∧
     respSrtpKey (respAudio response) = srtp_key (prepAudio request) ∧
     respSrtpSalt (respAudio response) = srtp_salt (prepAudio request) ∧
     respSrtpKey (respVideo response) ++ respSrtpSalt (respVideo response) = videoSRTP info ∧
     respSrtpKey (respAudio response) ++ respSrtpSalt (respAudio response) = audioSRTP info ∧
     (getIpAddress (envOs env) (addressVersion request) (interfaceName this) =
        inr (respAddress response) ∨
      getIpAddress (envOs env) (addressVersion request) None =
        inr (respAddress response))) ∧
  (∀ ex, outcome (prepareStream this env request) st = inl ex →
     prepareCallbacks (trace st') = prepareCallbacks (trace st)).
Proof.
  cbn zeta. unfold prepareStream, currentAddress. step_monad.
  destruct (getIpAddress (envOs env) (addressVersion request) (interfaceName this))
    as [ex | addr] eqn:E1; cbn.
  - destruct (Js.truthyStr (interfaceName this)); cbn.
    + destruct (getIpAddress (envOs env) (addressVersion request) None)
        as [ex' | addr] eqn:E2; cbn.
      * split; [intros [=] |]. intros _ _. by read_trace.
      * split; [| intros ex' [=]]. intros _.
        exists (prepareResponse env request addr). read_trace.
        repeat (split; [reflexivity |]). by right.
    + split; [intros [=] | done].
  - split; [| intros ex [=]]. intros _.
    exists (prepareResponse env request addr). read_trace.
    repeat (split; [reflexivity |]). by left.
Qed.

Lemma setup_callback_exactly_when_completed_witness :
  (∃ response,
     prepareCallbacks (trace (run (prepareStream Sample.camera Sample.env Sample.setup)
                                initialState)) =
       [("S1", response)] ∧
     respPort (respVideo response) = 51000 ∧
     respSrtpKey (respVideo response) = [Byte.x73; Byte.x72] ∧
     respSrtpSalt (respVideo response) = [Byte.x74; Byte.x70] ∧
     respSrtpKey (respAudio response) = [Byte.x4d; Byte.x61] ∧
     respSrtpSalt (respAudio response) = [Byte.x6e] ∧
     respAddress response = "192.168.1.10") ∧
  prepareCallbacks (trace (run (prepareStream Sample.camera Sample.offlineEnv Sample.setup)
                             initialState)) = [].
Proof.
  pose proof (setup_callback_exactly_when_completed Sample.camera Sample.env Sample.setup
                initialState) as [Hdone _].
  pose proof (setup_callback_exactly_when_completed Sample.camera Sample.offlineEnv
                Sample.setup initialState) as [_ Hfailed].
  cbn zeta in *. split.
  - destruct (Hdone eq_refl)
      as (response & Hcalls & Hport & _ & _ & _ & Hvk & Hvs & Hak & Has & _ & _ & Haddr).
    exists response.
    refine (conj Hcalls (conj Hport (conj Hvk (conj Hvs (conj Hak (conj Has _)))))).
    destruct Haddr as [Haddr | Haddr]; injection Haddr as <-; reflexivity.
  - eapply Hfailed. reflexivity.
Defined.

(** X5. A reconfigure request has no effect beyond a debug log line and
    its acknowledgement: it does not throw, leaves both tables as they
    are, creates and stops no supervisor, and invokes the callback once. *)
Theorem reconfigure_only_acknowledges (stopOutcome : FfmpegProcess → option Js.Error)
    (this : StreamingDelegate) (sessionID : string) (video : VideoInfo) (st : State) :
  let request := RECONFIGURE sessionID video in
  let st' := run (handleStreamRequest stopOutcome this request) st in
  outcome (handleStreamRequest stopOutcome this request) st = inr tt ∧
  pendingSessions st' = pendingSessions st ∧
  ongoingSessions st' = ongoingSessions st ∧
  newProcesses (trace st') = newProcesses (trace st) ∧
  terminations (trace st') = terminations (trace st) ∧
  streamCallbacks (trace st') = streamCallbacks (trace st) ++ [sessionID].
Proof.
  cbn zeta. cbn [handleStreamRequest]. step_monad.
  refine (conj eq_refl (conj eq_refl (conj eq_refl (conj _ (conj _ _))))); by read_trace.
Qed.

(** X6. A stop request is always acknowledged: [handleStreamRequest]
    does not throw and invokes the callback exactly once, also when the
    supervisor's [stop()] throws or no session is ongoing. *)
Theorem stop_request_is_always_acknowledged
    (stopOutcome : FfmpegProcess → option Js.Error)
    (this : StreamingDelegate) (sessionID : string) (st : State) :
  let st' := run (handleStreamRequest stopOutcome this (STOP sessionID)) st in
  outcome (handleStreamRequest stopOutcome this (STOP sessionID)) st = inr tt ∧
  streamCallbacks (trace st') = streamCallbacks (trace st) ++ [sessionID] ∧
  pendingSessions st' = pendingSessions st ∧
  ongoingSessions st' !! sessionID =
    leftByStop stopOutcome (ongoingSessions st !! sessionID).
Proof.
  cbn zeta. cbn [handleStreamRequest]. unfold run, outcome, bind.
  destruct (ongoingSessions st !! sessionID) as [p|] eqn:E; cbn [leftByStop].
  - destruct (stopOutcome p) as [err|] eqn:Es.
    + rewrite (stopStream_throws _ _ _ _ _ E Es). step_monad.
      refine (conj eq_refl (conj _ (conj eq_refl E))). by read_trace.
    + rewrite (stopStream_returns _ _ _ _ E Es). step_monad.
      refine (conj eq_refl (conj _ (conj eq_refl _))); [by read_trace |].
      apply lookup_delete_eq.
  - rewrite (stopStream_absent _ _ _ E). step_monad.
    refine (conj eq_refl (conj _ (conj eq_refl E))). by read_trace.
Qed.

(** X7. A start request never stops a supervisor. When its identifier
    already has an ongoing entry, that entry is replaced by the new
    supervisor and [stop()] is not invoked on the old one. *)
Theorem start_replaces_without_stopping (this : StreamingDelegate)
    (request : StartStreamRequest) (st : State) (info : SessionInfo) (old : FfmpegProcess) :
  pendingSessions st !! startSessionID request = Some info →
  ongoingSessions st !! startSessionID request = Some old →
  let st' := run (startStream this request) st in
  ongoingSessions st' !! startSessionID request = Some (newFfmpegProcess this request info) ∧
  newProcesses (trace st') = newProcesses (trace st) ++ [newFfmpegProcess this request info] ∧
  terminations (trace st') = terminations (trace st).
Proof.
  intros Hpending _. cbn zeta. unfold startStream. step_monad. rewrite Hpending. cbn.
  refine (conj _ (conj _ _)); [apply lookup_insert_eq | by read_trace | by read_trace].
Qed.

Lemma start_replaces_without_stopping_witness :
  let st := {| pendingSessions := {[ "S1" := Sample.session ]};
               ongoingSessions := {[ "S1" := Sample.process ]};
               trace := [] |} in
  let st' := run (startStream Sample.camera Sample.start) st in
  ongoingSessions st' !! "S1" = Some Sample.process ∧
  newProcesses (trace st') = [Sample.process] ∧
  terminations (trace st') = [].
Proof.
  exact (start_replaces_without_stopping Sample.camera Sample.start
           {| pendingSessions := {[ "S1" := Sample.session ]};
              ongoingSessions := {[ "S1" := Sample.process ]};
              trace := [] |} Sample.session Sample.process eq_refl eq_refl).
Defined.

(** ** Shutdown *)

Section ShutdownFacts.

Variable stopOutcome : FfmpegProcess → option Js.Error.
Implicit Types (st : State) (sessions : list string).

Lemma leftByStop_twice (entry : option FfmpegProcess) :
  leftByStop stopOutcome (leftByStop stopOutcome entry) = leftByStop stopOutcome entry.
Proof.
  destruct entry as [p|]; [| done]. cbn.
  destruct (stopOutcome p) eqn:E; [| done]. cbn. by rewrite E.
Qed.

Lemma stopStream_ongoing_lookup st (sessionId id : string) :
  ongoingSessions (run (stopStream stopOutcome sessionId) st) !! id =
  if decide (id = sessionId) then leftByStop stopOutcome (ongoingSessions st !! id)
  else ongoingSessions st !! id.
Proof.
  unfold run.
  destruct (ongoingSessions st !! sessionId) as [p|] eqn:E.
  - destruct (stopOutcome p) as [err|] eqn:Es.
    + rewrite (stopStream_throws _ _ _ _ _ E Es). cbn.
      case_decide as Hid; [| done]. subst id. rewrite E. cbn. by rewrite Es.
    + rewrite (stopStream_returns _ _ _ _ E Es). cbn.
      case_decide as Hid.
      * subst id. rewrite E. cbn. rewrite Es. apply lookup_delete_eq.
      * by rewrite lookup_delete_ne.
  - rewrite (stopStream_absent _ _ _ E). cbn.
    case_decide as Hid; [| done]. subst id. by rewrite E.
Qed.

Lemma stopStream_terminations st (sessionId : string) :
  terminations (trace (run (stopStream stopOutcome sessionId) st)) =
  terminations (trace st) ++ option_list (ongoingSessions st !! sessionId).
Proof.
  unfold run.
  destruct (ongoingSessions st !! sessionId) as [p|] eqn:E; cbn [option_list].
  - destruct (stopOutcome p) as [err|] eqn:Es.
    + rewrite (stopStream_throws _ _ _ _ _ E Es). cbn. by read_trace.
    + rewrite (stopStream_returns _ _ _ _ E Es). cbn. by read_trace.
  - rewrite (stopStream_absent _ _ _ E). cbn. by read_trace.
Qed.

Lemma stopAll_cons st (session : string) sessions :
  stopAll stopOutcome (session :: sessions) st =
  stopAll stopOutcome sessions (run (stopStream stopOutcome session) st).
Proof.
  cbn [stopAll]. unfold bind, run.
  pose proof (stopStream_never_throws stopOutcome st session) as Hok. unfold outcome in Hok.
  destruct (stopStream stopOutcome session st) as [st1 [e | []]]; cbn in *; done.
Qed.

Lemma stopAll_never_throws sessions st :
  outcome (stopAll stopOutcome sessions) st = inr tt.
Proof.
  revert st. induction sessions as [| session sessions IH]; intros st; [done |].
  unfold outcome. rewrite stopAll_cons. apply IH.
Qed.

Lemma stopAll_keeps_pending sessions st :
  pendingSessions (run (stopAll stopOutcome sessions) st) = pendingSessions st.
Proof.
  revert st. induction sessions as [| session sessions IH]; intros st; [done |].
  unfold run. rewrite stopAll_cons. fold (run (stopAll stopOutcome sessions)
    (run (stopStream stopOutcome session) st)).
  by rewrite IH, stopStream_keeps_pending.
Qed.

Lemma stopAll_ongoing_lookup sessions st (id : string) :
  ongoingSessions (run (stopAll stopOutcome sessions) st) !! id =
  if decide (id ∈ sessions) then leftByStop stopOutcome (ongoingSessions st !! id)
  else ongoingSessions st !! id.
Proof.
  revert st. induction sessions as [| session sessions IH]; intros st.
  - cbn. case_decide as Hin; [by apply not_elem_of_nil in Hin | done].
  - unfold run. rewrite stopAll_cons.
    fold (run (stopAll stopOutcome sessions) (run (stopStream stopOutcome session) st)).
    rewrite IH, stopStream_ongoing_lookup.
    destruct (decide (id = session)) as [-> | Hne].
    + rewrite (decide_True (P := session ∈ session :: sessions)) by apply list_elem_of_here.
      case_decide; [apply leftByStop_twice | done].
    + destruct (decide (id ∈ sessions)) as [Hin | Hnin].
      * by rewrite decide_True by (by apply list_elem_of_further).
      * rewrite decide_False; [done |]. intros [? | ?]%elem_of_cons; done.
Qed.

Lemma stopAll_terminations sessions st :
  NoDup sessions →
  terminations (trace (run (stopAll stopOutcome sessions) st)) =
  terminations (trace st) ++ omap (λ id, ongoingSessions st !! id) sessions.
Proof.
  intros Hnodup. revert st.
  induction Hnodup as [| session sessions Hfresh _ IH]; intros st.
  - cbn. by rewrite app_nil_r.
  - unfold run. rewrite stopAll_cons.
    fold (run (stopAll stopOutcome sessions) (run (stopStream stopOutcome session) st)).
    rewrite IH, stopStream_terminations, <- app_assoc. f_equal.
    assert (Hsame : omap (λ id, ongoingSessions
                            (run (stopStream stopOutcome session) st) !! id) sessions =
                    omap (λ id, ongoingSessions st !! id) sessions).
    { apply list_omap_ext, Forall2_same_length_lookup_2; [done |].
      intros i x y Hx Hy. assert (x = y) as <- by congruence.
      rewrite stopStream_ongoing_lookup, decide_False; [done |].
      intros ->. apply Hfresh. by eapply list_elem_of_lookup_2. }
    rewrite Hsame. cbn [omap list_omap].
    by destruct (ongoingSessions st !! session).
Qed.

Lemma supervisors_of_table (table : gmap string FfmpegProcess) sessions :
  NoDup sessions →
  (∀ id, id ∈ sessions ↔ is_Some (table !! id)) →
  omap (λ id, table !! id) sessions ≡ₚ (map_to_list table).*2.
Proof.
  intros Hnodup Hcover.
  assert (Hperm : sessions ≡ₚ (map_to_list table).*1).
  { apply NoDup_Permutation; [done | apply NoDup_fst_map_to_list |].
    intros id. rewrite Hcover, list_elem_of_fmap. split.
    - intros [p Hp]. exists (id, p). split; [done |]. by apply elem_of_map_to_list.
    - intros [[k p] [-> Hin]]. apply elem_of_map_to_list in Hin. by exists p. }
  rewrite Hperm.
  assert (Hall : Forall (λ kv, table !! kv.1 = Some kv.2) (map_to_list table)).
  { apply Forall_forall. intros [k p] Hin. by apply elem_of_map_to_list. }
  assert (Hread : ∀ l : list (string * FfmpegProcess),
            Forall (λ kv, table !! kv.1 = Some kv.2) l →
            omap (λ id, table !! id) l.*1 = l.*2).
  { intros l Hl. induction Hl as [| [k p] l Hkv _ IH]; [done |].
    csimpl in *. by rewrite Hkv, IH. }
  by rewrite (Hread _ Hall).
Qed.

End ShutdownFacts.

(** X8. The shutdown loop, over any enumeration of the identifiers in the
    ongoing table, does not throw and leaves the pending table as it is.
    Afterwards the ongoing table holds exactly the sessions whose
    supervisor's [stop()] threw: one failing stop does not keep the
    others from being stopped and removed, and when every [stop()]
    returns the table is empty. *)
Theorem shutdown_stops_every_session (stopOutcome : FfmpegProcess → option Js.Error)
    (sessions : list string) (st : State) :
  (∀ id, id ∈ sessions ↔ is_Some (ongoingSessions st !! id)) →
  let st' := run (stopAll stopOutcome sessions) st in
  outcome (stopAll stopOutcome sessions) st = inr tt ∧
  pendingSessions st' = pendingSessions st ∧
  (∀ id, ongoingSessions st' !! id = leftByStop stopOutcome (ongoingSessions st !! id)) ∧
  ((∀ id p, ongoingSessions st !! id = Some p → stopOutcome p = None) →
   ongoingSessions st' = ∅).
Proof.
  intros Hcover. cbn zeta.
  assert (Hlookup : ∀ id, ongoingSessions (run (stopAll stopOutcome sessions) st) !! id =
                          leftByStop stopOutcome (ongoingSessions st !! id)).
  { intros id. rewrite stopAll_ongoing_lookup. case_decide as Hin; [done |].
    destruct (ongoingSessions st !! id) as [p|] eqn:E; [| done].
    exfalso. apply Hin, Hcover. by rewrite E. }
  refine (conj _ (conj _ (conj Hlookup _))).
  - apply stopAll_never_throws.
  - apply stopAll_keeps_pending.
  - intros Hreturn. apply map_empty. intros id. rewrite Hlookup.
    destruct (ongoingSessions st !! id) as [p|] eqn:E; [| done].
    cbn. by rewrite (Hreturn id p E).
Qed.

Lemma busy_sessions_enumerated :
  ∀ id, id ∈ ["S2"; "S1"] ↔ is_Some (ongoingSessions Sample.busyState !! id).
Proof.
  intros id. rewrite !elem_of_cons, elem_of_nil. split.
  - intros [-> | [-> | []]]; eexists; reflexivity.
  - intros [p Hp].
    destruct (decide (id = "S1")) as [-> | H1]; [auto |].
    destruct (decide (id = "S2")) as [-> | H2]; [auto |].
    unfold Sample.busyState in Hp. cbn [ongoingSessions] in Hp.
    rewrite lookup_insert_ne, lookup_singleton_ne in Hp by done.
    discriminate.
Qed.

Lemma shutdown_stops_every_session_witness :
  let st' := run (stopAll Sample.stopThrowsOnS2 ["S2"; "S1"]) Sample.busyState in
  outcome (stopAll Sample.stopThrowsOnS2 ["S2"; "S1"]) Sample.busyState = inr tt ∧
  pendingSessions st' = pendingSessions Sample.busyState ∧
  ongoingSessions st' !! "S1" = None ∧
  ongoingSessions st' !! "S2" = Some Sample.otherProcess ∧
  ongoingSessions (run (stopAll Sample.stopReturns ["S2"; "S1"]) Sample.busyState) = ∅.
Proof.
  pose proof busy_sessions_enumerated as Hcover.
  pose proof (shutdown_stops_every_session Sample.stopThrowsOnS2 ["S2"; "S1"]
                Sample.busyState Hcover) as (Hok & Hpending & Hlookup & _).
  pose proof (shutdown_stops_every_session Sample.stopReturns ["S2"; "S1"]
                Sample.busyState Hcover) as (_ & _ & _ & Hempty).
  cbn zeta in *. refine (conj Hok (conj Hpending (conj _ (conj _ _)))).
  - rewrite Hlookup. reflexivity.
  - rewrite Hlookup. reflexivity.
  - apply Hempty. intros id p _. reflexivity.
Defined.

(** X9. The shutdown loop, over an enumeration without repetition of the
    identifiers in the ongoing table, invokes [stop()] exactly once on
    every supervisor of the table and on nothing else. *)
Theorem shutdown_stops_each_supervisor_once
    (stopOutcome : FfmpegProcess → option Js.Error) (sessions : list string) (st : State) :
  NoDup sessions →
  (∀ id, id ∈ sessions ↔ is_Some (ongoingSessions st !! id)) →
  ∃ stopped,
    terminations (trace (run (stopAll stopOutcome sessions) st)) =
      terminations (trace st) ++ stopped ∧
    stopped ≡ₚ (map_to_list (ongoingSessions st)).*2.
Proof.
  intros Hnodup Hcover.
  exists (omap (λ id, ongoingSessions st !! id) sessions). split.
  - by apply stopAll_terminations.
  - by apply supervisors_of_table.
Qed.

Lemma shutdown_stops_each_supervisor_once_witness :
  ∃ stopped,
    terminations (trace (run (stopAll Sample.stopThrowsOnS2 ["S2"; "S1"]) Sample.busyState))
    = terminations (trace Sample.busyState) ++ stopped ∧
    stopped ≡ₚ (map_to_list (ongoingSessions Sample.busyState)).*2.
Proof.
  apply (shutdown_stops_each_supervisor_once Sample.stopThrowsOnS2 ["S2"; "S1"]
           Sample.busyState).
  - apply NoDup_cons. split; [| apply NoDup_singleton].
    rewrite list_elem_of_singleton. discriminate.
  - exact busy_sessions_enumerated.
Defined.

(** ** Still images and the video filter *)

Lemma spawns_snoc (tr : list Effect) (e : Effect) :
  spawns (tr ++ [e]) = spawns tr ++ match e with Spawn c a => [(c, a)] | _ => [] end.
Proof. unfold spawns. rewrite omap_app. by destruct e. Qed.

Lemma snapshotHandlers_data (this : StreamingDelegate) (chunks : list Buffer)
    (rest : list ChildEvent) (imageBuffer : Buffer) (st : State) :
  snapshotHandlers this ((StdoutData <$> chunks) ++ rest) imageBuffer st =
  snapshotHandlers this rest (imageBuffer ++ List.concat chunks) st.
Proof.
  revert imageBuffer. induction chunks as [| chunk chunks IH]; intros imageBuffer.
  - cbn. by rewrite app_nil_r.
  - cbn [fmap list_fmap app snapshotHandlers List.concat].
    rewrite IH. by rewrite <- app_assoc.
Qed.

(** X10. A capture process that writes its image in any number of chunks
    and then closes: [spawn] is called once, with the configured
    processor and the snapshot command, and the callback is invoked once,
    without error, with the chunks concatenated in the order they
    arrived. *)
Theorem snapshot_delivers_the_whole_output (this : StreamingDelegate)
    (request : SnapshotRequest) (chunks : list Buffer) (code : option Z) (st : State) :
  let events := (StdoutData <$> chunks) ++ [ProcClose code] in
  let st' := run (handleSnapshotRequest this (Spawned events) request) st in
  outcome (handleSnapshotRequest this (Spawned events) request) st = inr tt ∧
  snapshotCallbacks (trace st') =
    snapshotCallbacks (trace st) ++ [(None, Some (List.concat chunks))] ∧
  spawns (trace st') =
    spawns (trace st) ++
    [(videoProcessor this,
      snapshotCommand (videoConfig this)
        (determineResolution (videoConfig this) (snapWidth request) (snapHeight request)))] ∧
  pendingSessions st' = pendingSessions st ∧
  ongoingSessions st' = ongoingSessions st.
Proof.
  cbn zeta. unfold handleSnapshotRequest. step_monad. cbn.
  rewrite snapshotHandlers_data. cbn [snapshotHandlers app]. step_monad. cbn.
  refine (conj eq_refl (conj _ (conj _ (conj eq_refl eq_refl)))).
  - by rewrite !snapshotCallbacks_snoc, !app_nil_r.
  - rewrite !spawns_snoc. cbn. by rewrite !app_nil_r.
Qed.

Section FilterFacts.

Variable cfg : VideoConfig.

Lemma baseFilter_nonempty (w h : Z) : baseFilter cfg w h ≠ EmptyString.
Proof.
  unfold baseFilter, configFilter.
  destruct (videoFilter cfg) as [f|]; cbn; [| discriminate].
  destruct (String.eqb_spec f EmptyString) as [-> | Hf]; cbn; [discriminate |].
  by destruct (String.eqb_spec f EmptyString).
Qed.

Lemma baseFilter_none (w h : Z) :
  baseFilter cfg w h = "none" ↔ videoFilter cfg = Some "none".
Proof.
  split.
  - unfold baseFilter, configFilter.
    destruct (videoFilter cfg) as [f|]; cbn; [| discriminate].
    destruct (String.eqb_spec f EmptyString) as [-> | Hf]; cbn; [discriminate |].
    destruct (String.eqb_spec f EmptyString); [done |]. by intros ->.
  - intros Hnone. by apply baseFilter_override.
Qed.

Lemma emitted_filter_nonempty (w h : Z) :
  baseFilter cfg w h ≠ "none" → Js.join "," (vf cfg w h) ≠ EmptyString.
Proof.
  intros Hemit. rewrite (vf_emitted cfg w h Hemit). unfold flipDirectives.
  pose proof (baseFilter_nonempty w h) as Hne.
  destruct (vflip cfg), (hflip cfg); cbn [app Js.join String.concat];
    [lazy; discriminate .. | done].
Qed.

End FilterFacts.

(** X11. The negotiated [videoFilter] is the empty string exactly when
    the configured filter is ['none']; with any other configuration a
    filter is emitted. *)
Theorem video_filter_empty_only_for_none (cfg : VideoConfig) (w h : Z) :
  resVideoFilter (determineResolution cfg w h) = EmptyString ↔
  videoFilter cfg = Some "none".
Proof.
  unfold determineResolution. cbn [resVideoFilter]. split.
  - intros Hempty. apply (baseFilter_none cfg (Js.capAt w (maxWidth cfg))
                            (Js.capAt h (maxHeight cfg))).
    destruct (String.eqb_spec
                (baseFilter cfg (Js.capAt w (maxWidth cfg)) (Js.capAt h (maxHeight cfg)))
                "none") as [Hnone | Hemit]; [done |].
    by apply emitted_filter_nonempty in Hemit.
  - intros Hnone. rewrite vf_suppressed; [done |]. by apply baseFilter_none.
Qed.

(** X12. The snapshot command is the still-image source when one is
    configured (the stream source otherwise), followed by
    [-frames:v 1], by [-vf] with the negotiated filter unless the
    configured filter is ['none'], and by [-f image2 -]. *)
Theorem snapshot_command_shape (cfg : VideoConfig) (w h : Z) :
  let res := determineResolution cfg w h in
  (∀ still, stillImageSource cfg = Some still → still ≠ EmptyString →
     snapshotCommand cfg res = still +:+ ffmpegStillArgs res) ∧
  (stillImageSource cfg = None ∨ stillImageSource cfg = Some EmptyString →
     snapshotCommand cfg res = source cfg +:+ ffmpegStillArgs res) ∧
  (videoFilter cfg = Some "none" →
     ffmpegStillArgs res = " -frames:v 1 -f image2 -") ∧
  (videoFilter cfg ≠ Some "none" →
     ffmpegStillArgs res =
     " -frames:v 1 -vf " +:+ resVideoFilter res +:+ " -f image2 -").
Proof.
  cbn zeta. unfold snapshotCommand, ffmpegStillArgs.
  refine (conj _ (conj _ (conj _ _))).
  - intros still -> Hne. cbn. by destruct (String.eqb_spec still EmptyString).
  - by intros [-> | ->].
  - intros Hnone. unfold determineResolution. cbn [resVideoFilter].
    rewrite vf_suppressed; [done |]. by apply baseFilter_none.
  - intros Hemit. unfold determineResolution. cbn [resVideoFilter].
    set (cw := Js.capAt w (maxWidth cfg)). set (ch := Js.capAt h (maxHeight cfg)).
    destruct (String.eqb_spec (Js.join "," (vf cfg cw ch)) EmptyString)
      as [Hempty | _]; [| reflexivity].
    exfalso. apply (emitted_filter_nonempty cfg cw ch); [| done].
    intros Hnone. by apply Hemit, (baseFilter_none cfg cw ch).
Qed.

Lemma snapshot_command_shape_witness :
  snapshotCommand Sample.config (determineResolution Sample.config 1920 1080) =
    "-rtsp_transport tcp -i rtsp://192.168.1.20/live -frames:v 1 -vf scale=1280:720" +:+
    " -f image2 -" ∧
  ffmpegStillArgs
    (determineResolution (Sample.withFilter (Some "none") None Sample.config) 1920 1080)
  = " -frames:v 1 -f image2 -".
Proof.
  pose proof (snapshot_command_shape Sample.config 1920 1080) as (_ & Hsource & _ & Hvf).
  pose proof (snapshot_command_shape (Sample.withFilter (Some "none") None Sample.config)
                1920 1080) as (_ & _ & Hnone & _).
  cbn zeta in *. split.
  - rewrite Hsource by (by left). rewrite Hvf by discriminate. reflexivity.
  - apply Hnone. reflexivity.
Defined.

(** X13. In the command of a start request the [-vf] option is left out
    when the codec is ['copy'] or the configured filter is ['none']: the
    bitrate options then follow the additional command line directly.
    Otherwise [-vf] with the negotiated filter stands between them. *)
Theorem start_command_filter_option (this : StreamingDelegate)
    (request : StartStreamRequest) :
  let cfg := videoConfig this in
  let res := determineResolution cfg (reqWidth (video request)) (reqHeight (video request)) in
  let vb := videoBitrate cfg (videoMaxBitRate (video request)) in
  let extra := Js.orStr (additionalCommandline cfg) "-preset ultrafast -tune zerolatency" in
  let rates :=
    " -b:v " +:+ pretty vb +:+ "k" +:+ " -bufsize " +:+ pretty (2 * vb) +:+ "k" +:+
    " -maxrate " +:+ pretty vb +:+ "k" +:+
    " -payload_type " +:+ pretty (videoPt (video request)) in
  (vcodec cfg = Some "copy" ∨ videoFilter cfg = Some "none" →
   endsWith (ffmpegVideoArgs this request) (" -f rawvideo" +:+ " " +:+ extra +:+ rates)) ∧
  (Js.orStr (vcodec cfg) "libx264" ≠ "copy" → videoFilter cfg ≠ Some "none" →
   endsWith (ffmpegVideoArgs this request)
     (" -f rawvideo" +:+ " " +:+ extra +:+ " -vf " +:+ resVideoFilter res +:+ rates)).
Proof.
  cbn zeta. unfold ffmpegVideoArgs. split.
  - intros Hoff.
    assert (Hskip : negb (String.eqb (Js.orStr (vcodec (videoConfig this)) "libx264") "copy") &&
                    negb (String.eqb
                            (resVideoFilter
                               (determineResolution (videoConfig this)
                                  (reqWidth (video request)) (reqHeight (video request))))
                            EmptyString) = false).
    { destruct Hoff as [Hcopy | Hnone].
      - by rewrite Hcopy.
      - unfold determineResolution. cbn [resVideoFilter].
        rewrite vf_suppressed by (by apply baseFilter_none). cbn.
        apply andb_false_r. }
    rewrite Hskip. ends_with.
  - intros Hcodec Hemit.
    apply String.eqb_neq in Hcodec. rewrite Hcodec. cbn [negb andb].
    unfold determineResolution. cbn [resVideoFilter].
    set (cw := Js.capAt _ (maxWidth _)). set (ch := Js.capAt _ (maxHeight _)).
    destruct (String.eqb_spec (Js.join "," (vf (videoConfig this) cw ch)) EmptyString)
      as [Hempty | _]; cbn [negb].
    + exfalso. apply (emitted_filter_nonempty (videoConfig this) cw ch); [| done].
      intros Hnone. by apply Hemit, (baseFilter_none (videoConfig this) cw ch).
    + rewrite (append_assoc " -vf "). ends_with.
Qed.

(** ** Address resolution *)

Section ResolverSoundness.

Variables (os : Os) (ver : AddressVersion).

(** The interface [getIpAddress] looks at. *)
Lemma getIpAddress_on_used_interface (iface : option string) :
  let used :=
    if Js.truthyStr iface then default EmptyString iface else networkInterfaceDefault os in
  getIpAddress os ver iface =
  match addressInfo (preferredFamily ver) (externalInfo os used) with
  | None =>
      inl (Js.PlainError
             ("Unable to get network address for " +:+ dquote +:+ used +:+ dquote +:+ "!"))
  | Some info => inr (ifAddress info)
  end.
Proof. cbn zeta. unfold getIpAddress. by destruct (Js.truthyStr iface). Qed.

Lemma external_entries (infos : list NetworkInterfaceInfo) (info : NetworkInterfaceInfo) :
  In info (List.filter (λ i, negb (internal i)) infos) ↔
  info ∈ infos ∧ internal info = false.
Proof. rewrite List.filter_In, list_elem_of_In, negb_true_iff. done. Qed.

Lemma addressInfo_chosen (infos : list NetworkInterfaceInfo) (info : NetworkInterfaceInfo) :
  addressInfo (preferredFamily ver) (Some (List.filter (λ i, negb (internal i)) infos))
  = Some info →
  info ∈ infos ∧ internal info = false ∧
  (family info = preferredFamily ver ∨
   ∀ other, other ∈ infos → internal other = false → family other ≠ preferredFamily ver).
Proof.
  cbn [addressInfo].
  destruct (List.find _ _) as [found|] eqn:Efind.
  - intros [= ->]. apply List.find_some in Efind as [Hin Hfam].
    apply external_entries in Hin as [Hin Hext].
    refine (conj Hin (conj Hext _)). left. by apply Family_eqb_eq.
  - destruct (List.filter _ infos) as [| first rest] eqn:Efilter; [discriminate |].
    intros [= ->].
    assert (Hin : In info (List.filter (λ i, negb (internal i)) infos))
      by (rewrite Efilter; by left).
    apply external_entries in Hin as [Hin Hext].
    refine (conj Hin (conj Hext _)). right. intros other Hother Hint.
    apply Family_eqb_neq, (List.find_none _ _ Efind).
    rewrite <- Efilter. by apply external_entries.
Qed.

Lemma addressInfo_missing (entry : option (list NetworkInterfaceInfo)) :
  addressInfo (preferredFamily ver) (List.filter (λ i, negb (internal i)) <$> entry) = None ↔
  ∀ infos info, entry = Some infos → info ∈ infos → internal info = true.
Proof.
  destruct entry as [infos|]; cbn [fmap option_fmap option_map addressInfo];
    [| split; [intros _ ? ? [=] | done]].
  split.
  - destruct (List.find _ _) as [found|] eqn:Efind; [discriminate |].
    destruct (List.filter _ infos) as [| first rest] eqn:Efilter; [| discriminate].
    intros _ infos' info [= <-] Hin.
    destruct (internal info) eqn:Hint; [done |].
    assert (Hext : In info (List.filter (λ i, negb (internal i)) infos))
      by by apply external_entries.
    by rewrite Efilter in Hext.
  - intros Hall.
    assert (Hnone : List.filter (λ i, negb (internal i)) infos = []).
    { destruct (List.filter _ infos) as [| first rest] eqn:Efilter; [done |].
      assert (Hin : In first (List.filter (λ i, negb (internal i)) infos))
        by (rewrite Efilter; by left).
      apply external_entries in Hin as [Hin Hext].
      by rewrite (Hall infos first eq_refl Hin) in Hext. }
    by rewrite Hnone.
Qed.

End ResolverSoundness.

(** X14. An address that [getIpAddress] returns is the address of a
    non-internal entry of the interface it used. For an [ipv4] request it
    is an IPv4 address, and for an [ipv6] request an IPv6 address, unless
    that interface has no non-internal address of that family. *)
Theorem resolved_address_is_external (os : Os) (ver : AddressVersion)
    (iface : option string) (addr : string) :
  getIpAddress os ver iface = inr addr →
  let used :=
    if Js.truthyStr iface then default EmptyString iface else networkInterfaceDefault os in
  let requested := match ver with ipv6 => IPv6 | ipv4 => IPv4 end in
  ∃ infos info,
    networkInterfaces os !! used = Some infos ∧
    info ∈ infos ∧ internal info = false ∧ ifAddress info = addr ∧
    (family info = requested ∨
     ∀ other, other ∈ infos → internal other = false → family other ≠ requested).
Proof.
  rewrite getIpAddress_on_used_interface. cbn zeta. unfold externalInfo.
  set (used := if Js.truthyStr iface then _ else _).
  destruct (networkInterfaces os !! used) as [infos|]; cbn [fmap option_fmap option_map];
    [| discriminate].
  destruct (addressInfo _ _) as [info|] eqn:Einfo; [| discriminate].
  intros [= <-]. apply addressInfo_chosen in Einfo as (Hin & Hext & Hfam).
  exists infos, info. exact (conj eq_refl (conj Hin (conj Hext (conj eq_refl Hfam)))).
Qed.

Lemma resolved_address_is_external_witness :
  (∃ info,
     info ∈ Sample.eth0 ∧ internal info = false ∧ ifAddress info = "192.168.1.10" ∧
     family info = IPv4) ∧
  (∃ info,
     info ∈ Sample.eth0 ∧ internal info = false ∧ ifAddress info = "fe80::1c2d" ∧
     family info = IPv6) ∧
  (∃ info,
     info ∈ Sample.tun0 ∧ internal info = false ∧ ifAddress info = "fd00::7" ∧
     ∀ other, other ∈ Sample.tun0 → internal other = false → family other ≠ IPv4).
Proof.
  pose proof (resolved_address_is_external Sample.os ipv4 None "192.168.1.10" eq_refl)
    as (infos4 & info4 & [= <-] & Hin4 & Hext4 & Haddr4 & Hfam4).
  pose proof (resolved_address_is_external Sample.os ipv6 (Some "eth0") "fe80::1c2d" eq_refl)
    as (infos6 & info6 & [= <-] & Hin6 & Hext6 & Haddr6 & Hfam6).
  pose proof (resolved_address_is_external (envOs Sample.tunnelEnv) ipv4 None "fd00::7"
                eq_refl)
    as (infost & infot & [= <-] & Hint & Hextt & Haddrt & Hfamt).
  cbn zeta in *.
  refine (conj _ (conj _ _)).
  - exists info4. refine (conj Hin4 (conj Hext4 (conj Haddr4 _))).
    destruct Hfam4 as [Hfam | Hnone]; [exact Hfam |].
    exfalso.
    apply (Hnone {| ifAddress := "192.168.1.10"; family := IPv4; internal := false |});
      [| reflexivity | reflexivity].
    apply list_elem_of_further, list_elem_of_here.
  - exists info6. refine (conj Hin6 (conj Hext6 (conj Haddr6 _))).
    destruct Hfam6 as [Hfam | Hnone]; [exact Hfam |].
    exfalso.
    apply (Hnone {| ifAddress := "fe80::1c2d"; family := IPv6; internal := false |});
      [| reflexivity | reflexivity].
    apply list_elem_of_here.
  - exists infot. refine (conj Hint (conj Hextt (conj Haddrt _))).
    destruct Hfamt as [Hfam | Hnone]; [| exact Hnone].
    exfalso. unfold Sample.tun0 in Hint.
    apply elem_of_cons in Hint as [-> | Hint]; [discriminate Hextt |].
    apply list_elem_of_singleton in Hint as ->. discriminate Hfam.
Defined.

(** X15. [getIpAddress] throws exactly when the interface it uses is
    unknown or has only internal addresses, and the error names that
    interface. *)
Theorem resolution_fails_only_without_external_address (os : Os) (ver : AddressVersion)
    (iface : option string) :
  let used :=
    if Js.truthyStr iface then default EmptyString iface else networkInterfaceDefault os in
  ((∃ ex, getIpAddress os ver iface = inl ex) ↔
   (∀ infos info, networkInterfaces os !! used = Some infos → info ∈ infos →
                  internal info = true)) ∧
  (∀ ex, getIpAddress os ver iface = inl ex →
     ex = Js.PlainError
            ("Unable to get network address for " +:+ dquote +:+ used +:+ dquote +:+ "!")).
Proof.
  rewrite getIpAddress_on_used_interface. cbn zeta. unfold externalInfo.
  set (used := if Js.truthyStr iface then _ else _).
  rewrite <- (addressInfo_missing ver).
  destruct (addressInfo _ _) as [info|]; split.
  - split; [intros [ex [=]] | discriminate].
  - intros ex [=].
  - split; [done | eauto].
  - by intros ex [= <-].
Qed.

Lemma resolution_fails_only_without_external_address_witness :
  (∃ ex, getIpAddress Sample.os ipv4 (Some "lo") = inl ex) ∧
  getIpAddress Sample.os ipv4 (Some "wlan0") =
    inl (Js.PlainError
           ("Unable to get network address for " +:+ dquote +:+ "wlan0" +:+ dquote +:+ "!")).
Proof.
  pose proof (resolution_fails_only_without_external_address Sample.os ipv4 (Some "lo"))
    as [Hiff _].
  pose proof (resolution_fails_only_without_external_address Sample.os ipv4 (Some "wlan0"))
    as [_ Hname].
  cbn zeta in *. split.
  - apply Hiff. intros infos info [= <-] Hin.
    apply list_elem_of_singleton in Hin. by subst info.
  - destruct (getIpAddress Sample.os ipv4 (Some "wlan0")) as [ex | addr] eqn:E;
      [| discriminate E].
    by rewrite (Hname ex eq_refl).
Defined.

Lemma video_filter_empty_only_for_none_witness :
  resVideoFilter
    (determineResolution (Sample.withFilter (Some "none") None Sample.config) 1920 1080)
  = EmptyString ∧
  resVideoFilter (determineResolution Sample.config 1920 1080) ≠ EmptyString.
Proof.
  split.
  - apply (video_filter_empty_only_for_none
             (Sample.withFilter (Some "none") None Sample.config) 1920 1080).
    reflexivity.
  - intros Hempty.
    apply (video_filter_empty_only_for_none Sample.config 1920 1080) in Hempty.
    discriminate Hempty.
Defined.

Lemma start_command_filter_option_witness :
  endsWith
    (ffmpegVideoArgs
       {| name := "Front Door";
          videoConfig := Sample.withFilter (Some "none") None Sample.config;
          videoProcessor := "ffmpeg";
          interfaceName := None |} Sample.start)
    (" -f rawvideo -preset ultrafast -tune zerolatency" +:+
     " -b:v 2000k -bufsize 4000k -maxrate 2000k -payload_type 99") ∧
  endsWith (ffmpegVideoArgs Sample.camera Sample.start)
    (" -f rawvideo -preset ultrafast -tune zerolatency -vf scale=1280:720" +:+
     " -b:v 2000k -bufsize 4000k -maxrate 2000k -payload_type 99").
Proof.
  split.
  - apply (start_command_filter_option
             {| name := "Front Door";
                videoConfig := Sample.withFilter (Some "none") None Sample.config;
                videoProcessor := "ffmpeg";
                interfaceName := None |} Sample.start).
    right. reflexivity.
  - apply (start_command_filter_option Sample.camera Sample.start); discriminate.
Defined.

(** ** Bitrates *)

(** X16. With a minimum and a maximum bitrate in force and the minimum
    not above the maximum, the video bitrate of every request lies between
    them, and negotiating again from the result changes nothing. *)
Theorem video_bitrate_stays_in_range (cfg : VideoConfig) (v mn mx : Z) :
  minBitrate cfg = Some mn → maxBitrate cfg = Some mx →
  mn ≠ 0 → mx ≠ 0 → mn ≤ mx →
  mn ≤ videoBitrate cfg v ≤ mx ∧
  videoBitrate cfg (videoBitrate cfg v) = videoBitrate cfg v.
Proof.
  intros Hmn Hmx Hn0 Hx0 Hle.
  assert (Hclamp : ∀ u, videoBitrate cfg u = if u >? mx then mx else if u <? mn then mn else u).
  { intros u. unfold videoBitrate.
    rewrite (truthyNum_set _ _ Hmx Hx0), (truthyNum_set _ _ Hmn Hn0), Hmx, Hmn. done. }
  rewrite !Hclamp.
  destruct (Z.gtb_spec v mx), (Z.ltb_spec v mn);
    repeat match goal with
           | |- context [?a >? ?b] => destruct (Z.gtb_spec a b)
           | |- context [?a <? ?b] => destruct (Z.ltb_spec a b)
           end; lia.
Qed.

Lemma video_bitrate_stays_in_range_witness :
  500 ≤ videoBitrate Sample.config 4000 ≤ 2000 ∧
  videoBitrate Sample.config (videoBitrate Sample.config 4000) =
  videoBitrate Sample.config 4000.
Proof.
  apply (video_bitrate_stays_in_range Sample.config 4000 500 2000);
    [reflexivity | reflexivity | lia | lia | lia].
Defined.

(** ** From setup to start *)

Section SetupToStart.

Variable this : StreamingDelegate.

Lemma prepareStream_completed_trace (env : PrepareEnv) (request : PrepareStreamRequest)
    (st : State) :
  outcome (prepareStream this env request) st = inr tt →
  ∃ addr,
    prepareCallbacks (trace (run (prepareStream this env request) st)) =
      prepareCallbacks (trace st) ++
      [(prepSessionID request, prepareResponse env request addr)] ∧
    newProcesses (trace (run (prepareStream this env request) st)) =
      newProcesses (trace st).
Proof.
  unfold prepareStream, currentAddress. step_monad.
  destruct (getIpAddress (envOs env) (addressVersion request) (interfaceName this))
    as [ex | addr]; cbn.
  - destruct (Js.truthyStr (interfaceName this)); cbn; [| discriminate].
    destruct (getIpAddress (envOs env) (addressVersion request) None) as [ex' | addr];
      cbn; [discriminate |].
    intros _. exists addr. by read_trace.
  - intros _. exists addr. by read_trace.
Qed.

Lemma startStream_pending_trace (request : StartStreamRequest) (st : State)
    (info : SessionInfo) :
  pendingSessions st !! startSessionID request = Some info →
  newProcesses (trace (run (startStream this request) st)) =
    newProcesses (trace st) ++ [newFfmpegProcess this request info].
Proof.
  intros Hpending. unfold startStream. step_monad. rewrite Hpending. cbn. by read_trace.
Qed.

Lemma fcmd_has_video_stream (request : StartStreamRequest) (info : SessionInfo) :
  hasSegment (fcmd this request info) (ffmpegVideoStream this info).
Proof.
  exists (source (videoConfig this) +:+ ffmpegVideoArgs this request).
  eexists. unfold fcmd. by rewrite append_assoc.
Qed.

End SetupToStart.

(** X17. A start request that follows a completed setup request creates
    one supervisor for the session. The supervisor listens on the video
    return port that the setup response announced, and its command sends
    the video with the synchronisation source of that response, the key
    and salt of the setup request, to the address and video port of the
    setup request. *)
Theorem started_stream_matches_its_setup (this : StreamingDelegate) (env : PrepareEnv)
    (setup : PrepareStreamRequest) (start : StartStreamRequest) (st : State) :
  startSessionID start = prepSessionID setup →
  outcome (prepareStream this env setup) st = inr tt →
  let afterSetup := run (prepareStream this env setup) st in
  let afterStart := run (startStream this start) afterSetup in
  ∃ response process,
    prepareCallbacks (trace afterSetup) =
      prepareCallbacks (trace st) ++ [(prepSessionID setup, response)] ∧
    newProcesses (trace afterStart) = newProcesses (trace st) ++ [process] ∧
    ongoingSessions afterStart !! prepSessionID setup = Some process ∧
    procSessionId process = prepSessionID setup ∧
    procCommand process = videoProcessor this ∧
    procReturnPort process = respPort (respVideo response) ∧
    hasSegment (procArgs process)
      (" -ssrc " +:+ pretty (respSsrc (respVideo response)) +:+
       " -f rtp" +:+
       " -srtp_out_suite AES_CM_128_HMAC_SHA1_80" +:+
       " -srtp_out_params " +:+
       base64 (srtp_key (prepVideo setup) ++ srtp_salt (prepVideo setup)) +:+
       " srtp://" +:+ targetAddress setup +:+ ":" +:+ pretty (srcPort (prepVideo setup)) +:+
       "?rtcpport=" +:+ pretty (srcPort (prepVideo setup)) +:+
       "&localrtcpport=" +:+ pretty (srcPort (prepVideo setup)) +:+
       "&pkt_size=" +:+ pretty (mtu (videoConfig this))).
Proof.
  intros Hid Hsetup. cbn zeta.
  destruct (prepareStream_completed_trace this env setup st Hsetup) as (addr & Hcalls & Hnew).
  destruct (prepareStream_completed this st env setup Hsetup) as [Hp _].
  assert (Hpending : pendingSessions (run (prepareStream this env setup) st)
                       !! startSessionID start = Some (prepareSessionInfo env setup)).
  { rewrite Hid, Hp. apply lookup_insert_eq. }
  destruct (startStream_pending this _ start _ Hpending) as (_ & _ & Ho).
  exists (prepareResponse env setup addr),
         (newFfmpegProcess this start (prepareSessionInfo env setup)).
  refine (conj Hcalls (conj _ (conj _ (conj Hid (conj eq_refl (conj eq_refl _)))))).
  - by rewrite (startStream_pending_trace this start _ _ Hpending), Hnew.
  - rewrite Ho, Hid. apply lookup_insert_eq.
  - apply (fcmd_has_video_stream this start (prepareSessionInfo env setup)).
Qed.

Lemma started_stream_matches_its_setup_witness :
  let afterSetup := run (prepareStream Sample.camera Sample.env Sample.setup) initialState in
  let afterStart := run (startStream Sample.camera Sample.start) afterSetup in
  ∃ response process,
    prepareCallbacks (trace afterSetup) =
      prepareCallbacks (trace initialState) ++ [("S1", response)] ∧
    newProcesses (trace afterStart) = newProcesses (trace initialState) ++ [process] ∧
    ongoingSessions afterStart !! "S1" = Some process ∧
    procSessionId process = "S1" ∧
    procCommand process = "ffmpeg" ∧
    procReturnPort process = respPort (respVideo response) ∧
    hasSegment (procArgs process)
      (" -ssrc " +:+ pretty (respSsrc (respVideo response)) +:+
       " -f rtp" +:+
       " -srtp_out_suite AES_CM_128_HMAC_SHA1_80" +:+
       " -srtp_out_params " +:+ "c3J0cA==" +:+
       " srtp://" +:+ "192.168.1.50" +:+ ":" +:+ "50000" +:+
       "?rtcpport=" +:+ "50000" +:+
       "&localrtcpport=" +:+ "50000" +:+
       "&pkt_size=" +:+ "1316").
Proof.
  exact (started_stream_matches_its_setup Sample.camera Sample.env Sample.setup
           Sample.start initialState eq_refl eq_refl).
Defined.

(** X18. A start request returns exactly when its identifier has an entry
    in the pending table, and then it creates one supervisor; when it
    throws it creates none. In neither case does it stop a supervisor. *)
Theorem start_succeeds_exactly_with_pending_entry (this : StreamingDelegate)
    (request : StartStreamRequest) (st : State) :
  let st' := run (startStream this request) st in
  (outcome (startStream this request) st = inr tt ↔
   is_Some (pendingSessions st !! startSessionID request)) ∧
  (∀ info, pendingSessions st !! startSessionID request = Some info →
     newProcesses (trace st') = newProcesses (trace st) ++ [newFfmpegProcess this request info]) ∧
  (pendingSessions st !! startSessionID request = None →
     newProcesses (trace st') = newProcesses (trace st)) ∧
  terminations (trace st') = terminations (trace st).
Proof.
  cbn zeta. unfold startStream. step_monad.
  destruct (pendingSessions st !! startSessionID request) as [info|]; cbn.
  - refine (conj _ (conj _ (conj _ _))).
    + split; [eauto | done].
    + intros info' [= <-]. by read_trace.
    + intros [=].
    + by read_trace.
  - refine (conj _ (conj _ (conj _ _))).
    + split; [intros [=] | by intros [? [=]]].
    + intros info [=].
    + intros _. by read_trace.
    + by read_trace.
Qed.

Lemma start_succeeds_exactly_with_pending_entry_witness :
  outcome (startStream Sample.camera Sample.start) Sample.pendingState = inr tt ∧
  newProcesses (trace (run (startStream Sample.camera Sample.start) Sample.pendingState))
  = [Sample.process] ∧
  newProcesses (trace (run (startStream Sample.camera Sample.start) initialState)) = [].
Proof.
  pose proof (start_succeeds_exactly_with_pending_entry Sample.camera Sample.start
                Sample.pendingState) as (Hiff & Hnew & _ & _).
  pose proof (start_succeeds_exactly_with_pending_entry Sample.camera Sample.start
                initialState) as (_ & _ & Hnone & _).
  cbn zeta in *. refine (conj _ (conj _ _)).
  - apply Hiff. eexists. reflexivity.
  - apply (Hnew Sample.session). reflexivity.
  - apply Hnone. reflexivity.
Defined.

Lemma errorsLogged_snoc (tr : list Effect) (e : Effect) :
  errorsLogged (tr ++ [e]) =
  errorsLogged tr ++ match e with Log Err m => [m] | _ => [] end.
Proof.
  unfold errorsLogged. rewrite omap_app. destruct e as [[] | | | | | |]; done.
Qed.

(** X19. When [spawn] itself throws, the snapshot request does not throw:
    the error is logged, and the callback is invoked once, with that
    error and without an image. *)
Theorem snapshot_spawn_exception_reaches_callback (this : StreamingDelegate)
    (request : SnapshotRequest) (err : Js.Error) (st : State) :
  let st' := run (handleSnapshotRequest this (SpawnThrows err) request) st in
  outcome (handleSnapshotRequest this (SpawnThrows err) request) st = inr tt ∧
  snapshotCallbacks (trace st') = snapshotCallbacks (trace st) ++ [(Some err, None)] ∧
  errorsLogged (trace st') = errorsLogged (trace st) ++ [Js.toString err] ∧
  pendingSessions st' = pendingSessions st ∧
  ongoingSessions st' = ongoingSessions st.
Proof.
  cbn zeta. unfold handleSnapshotRequest. step_monad. cbn.
  refine (conj eq_refl (conj _ (conj _ (conj eq_refl eq_refl)))).
  - by rewrite !snapshotCallbacks_snoc, !app_nil_r.
  - rewrite !errorsLogged_snoc. cbn. by rewrite !app_nil_r.
Qed.
